(** * Settlement-matching harness: dataset generation, orchestration, metrics

    A shallow embedding of the Python harness
    ([generate_and_assert.py], [benchmark.py]) and the properties its
    specification states about it.

    Conventions.
    - Python [int] is [Z]; [range n] of a non-positive [n] is empty.
    - Python [str] is [string], a sequence of code points below 256; the
      [str] methods the harness calls are written out in [PyStr].
    - Python [float] values are the exact rationals ([Q]) their literals
      denote; [statistics.mean] is the exact quotient.
    - The process-wide [random] module is an explicit generator state that
      every drawing function takes and returns.
    - The file system, the clock and the child process are an explicit
      world that the orchestrator steps through. *)

From Stdlib Require Import ZArith QArith Reals Qreals Strings.String Strings.Ascii.
From Stdlib Require Import Numbers.DecimalString Numbers.DecimalN Lra.
From Stdlib Require Lqa.
From stdpp Require Import gmap strings list fin_maps.

Open Scope Z_scope.

(** ** Python string primitives *)

Module PyStr.

(** [str(n)] for a natural number. *)
Definition str_of_N (n : N) : string :=
  NilEmpty.string_of_uint (N.to_uint n).

(** [str(z)]. *)
Definition str_of_Z (z : Z) : string :=
  if z <? 0 then "-" +:+ str_of_N (Z.abs_N z) else str_of_N (Z.to_N z).

Fixpoint zeros (k : nat) : string :=
  match k with
  | O => ""
  | S k' => String "0" (zeros k')
  end.

(** [f"{z:0{w}d}"]: sign-aware zero padding to a minimum width. *)
Definition format_0d (w : nat) (z : Z) : string :=
  let digits := str_of_N (Z.abs_N z) in
  if z <? 0
  then "-" +:+ zeros (w - 1 - String.length digits) +:+ digits
  else zeros (w - String.length digits) +:+ digits.

(** Reading back a run of decimal digits. *)
Definition N_of_digits (s : string) : option N :=
  N.of_uint <$> NilEmpty.uint_of_string s.

(** [s.startswith(p)]. *)
Definition startswith (p s : string) : bool := String.prefix p s.

(** [sub in s]. *)
Fixpoint contains (sub s : string) : bool :=
  String.prefix sub s ||
  match s with
  | EmptyString => false
  | String _ s' => contains sub s'
  end.

Fixpoint drop (n : nat) (s : string) : string :=
  match n, s with
  | O, _ => s
  | S n', String _ s' => drop n' s'
  | S _, EmptyString => EmptyString
  end.

(** Line boundaries of [str.splitlines] among the code points below 256. *)
Definition is_linebreak (c : ascii) : bool :=
  let n := nat_of_ascii c in
  bool_decide (n = 10 ∨ n = 11 ∨ n = 12 ∨ n = 13 ∨
               n = 28 ∨ n = 29 ∨ n = 30 ∨ n = 133)%nat.

(** [splitlines_go cur s]: [cur] is the line read so far, reversed. *)
Fixpoint splitlines_go (cur : string) (s : string) : list string :=
  match s with
  | EmptyString =>
      match cur with
      | EmptyString => []
      | _ => [String.rev cur]
      end
  | String c s' =>
      if is_linebreak c then
        match s' with
        | String c' s'' =>
            if bool_decide (c = "013"%char) && bool_decide (c' = "010"%char)
            then String.rev cur :: splitlines_go EmptyString s''
            else String.rev cur :: splitlines_go EmptyString s'
        | EmptyString => [String.rev cur]
        end
      else splitlines_go (String c cur) s'
  end.

(** [s.splitlines()]. *)
Definition splitlines (s : string) : list string :=
  splitlines_go EmptyString s.

(** [str.isspace] on one code point below 256. *)
Definition is_space (c : ascii) : bool :=
  let n := nat_of_ascii c in
  bool_decide ((9 <= n <= 13) ∨ (28 <= n <= 32) ∨ n = 133 ∨ n = 160)%nat.

Fixpoint lstrip (s : string) : string :=
  match s with
  | String c s' => if is_space c then lstrip s' else s
  | EmptyString => EmptyString
  end.

(** [s.strip()]. *)
Definition strip (s : string) : string :=
  String.rev (lstrip (String.rev (lstrip s))).

(** [s.replace(old, new)] for a non-empty [old], left to right. *)
Fixpoint replace_go (fuel : nat) (old new s : string) : string :=
  match fuel with
  | O => s
  | S fuel' =>
      match s with
      | EmptyString => EmptyString
      | String c s' =>
          if String.prefix old s
          then new +:+ replace_go fuel' old new (drop (String.length old) s)
          else String c (replace_go fuel' old new s')
      end
  end.

Definition replace (old new s : string) : string :=
  replace_go (String.length s) old new s.

(** [s.split(sep)] for a non-empty [sep]; [cur] is reversed. *)
Fixpoint split_go (fuel : nat) (sep cur s : string) : list string :=
  match fuel with
  | O => [String.rev cur +:+ s]
  | S fuel' =>
      match s with
      | EmptyString => [String.rev cur]
      | String c s' =>
          if String.prefix sep s
          then String.rev cur
                 :: split_go fuel' sep EmptyString (drop (String.length sep) s)
          else split_go fuel' sep (String c cur) s'
      end
  end.

Definition split (sep s : string) : list string :=
  split_go (String.length s) sep EmptyString s.

(** [s.split(c, 1)] when [c in s]: the text before and after the first
    occurrence of the character; [None] when it does not occur. *)
Fixpoint split_once (c : ascii) (s : string) : option (string * string) :=
  match s with
  | EmptyString => None
  | String a s' =>
      if bool_decide (a = c) then Some (EmptyString, s')
      else (λ p, (String a p.1, p.2)) <$> split_once c s'
  end.

(** ["\n".join(l)] and friends. *)
Fixpoint join (sep : string) (l : list string) : string :=
  match l with
  | [] => ""
  | [x] => x
  | x :: l' => x +:+ sep +:+ join sep l'
  end.

End PyStr.

(** ** The random source

    The harness draws from Python's process-wide [random] module.  The
    generator state is made explicit; the drawing primitives are the
    interface of the library, and the functions of the harness are written
    against that interface. *)

Class RandomSource (G : Type) := {
  (** [random._randbelow(n)] for [n > 0]. *)
  randbelow : Z → G → Z * G;
  (** [floor(random.random() * n)], the index drawn by [random.choices]. *)
  randfloor : Z → G → Z * G;
  (** [random.sample(range(n), k)] for [0 <= k <= n]. *)
  sample_range : nat → nat → G → list nat * G;
  (** The order in which [random.shuffle] leaves the positions of a list
      of [n] elements. *)
  shuffle_order : nat → G → list nat * G;
  (** [random.seed(a)]: the state is a function of the seed alone. *)
  seeded : Z → G
}.

(** What the library documents about the drawn values. *)
Class RandomSourceLaws (G : Type) `{RandomSource G} : Prop := {
  randbelow_range : ∀ n g, 0 < n → 0 <= (randbelow n g).1 < n;
  randfloor_range : ∀ n g, 0 < n → 0 <= (randfloor n g).1 < n;
  sample_range_length : ∀ n k g,
    (k <= n)%nat → length (sample_range n k g).1 = k;
  sample_range_bound : ∀ n k g i,
    (k <= n)%nat → i ∈ (sample_range n k g).1 → (i < n)%nat;
  sample_range_NoDup : ∀ n k g,
    (k <= n)%nat → NoDup (sample_range n k g).1;
  shuffle_order_perm : ∀ n g, (shuffle_order n g).1 ≡ₚ seq 0 n
}.

(** Computations that draw random values. *)
Definition Rand (G A : Type) : Type := G → A * G.

Definition rret {G A} (x : A) : Rand G A := λ g, (x, g).

Definition rbind {G A B} (m : Rand G A) (k : A → Rand G B) : Rand G B :=
  λ g, let '(x, g') := m g in k x g'.

Notation "'draw' x '<-' m 'in' k" := (rbind m (λ x, k))
  (at level 10, x name, m at level 200, k at level 200).

(** [[body start, body (start+1), ..., body (start+n-1)]], drawn in order. *)
Fixpoint for_range {G A} (body : nat → Rand G A) (start n : nat)
  : Rand G (list A) :=
  match n with
  | O => rret []
  | S n' =>
      draw x <- body start in
      draw xs <- for_range body (S start) n' in
      rret (x :: xs)
  end.

Section RandomFunctions.
Context {G : Type} `{RandomSource G}.

(** [random.choice(x :: l)]. *)
Definition choice_nonempty {A} (x : A) (l : list A) : Rand G A :=
  draw i <- randbelow (Z.of_nat (length (x :: l))) in
  rret (nth (Z.to_nat i) (x :: l) x).

(** [random.choice(l)]; [None] is the [IndexError] on an empty list. *)
Definition choice {A} (l : list A) : option (Rand G A) :=
  match l with
  | [] => None
  | x :: l' => Some (choice_nonempty x l')
  end.

(** [random.randint(a, b)]. *)
Definition randint (a b : Z) : Rand G Z :=
  draw r <- randbelow (b - a + 1) in
  rret (a + r).

(** [random.choices(x :: l, k=k)]. *)
Definition choices_nonempty {A} (x : A) (l : list A) (k : nat)
  : Rand G (list A) :=
  for_range
    (λ _, draw i <- randfloor (Z.of_nat (length (x :: l))) in
          rret (nth (Z.to_nat i) (x :: l) x))
    0 k.

(** [random.sample(range(n), k)]; [None] is the [ValueError] raised when
    the sample is negative or larger than the population. *)
Definition sample (n : nat) (k : Z) : option (Rand G (list nat)) :=
  if bool_decide (0 <= k <= Z.of_nat n)
  then Some (sample_range n (Z.to_nat k))
  else None.

(** [random.shuffle(l)]: the list is rearranged in place. *)
Definition shuffle {A} (l : list A) : Rand G (list A) :=
  draw p <- shuffle_order (length l) in
  rret (omap (λ i, l !! i) p).

End RandomFunctions.

(** ** Obligations ([generate_and_assert.py]) *)

Record Trade := {
  obligation_id : string;
  venue : string;
  isin : string;
  account : string;
  settle_date : string;
  intended_qty : Z
}.

(** The population of [rand_isin] after its first letter ["A"]. *)
Definition isin_alphabet : list ascii :=
  list_ascii_of_string "BCDEFGHIJKLMNOPQRSTUVWXYZ0123456789".

Section Generator.
Context {G : Type} `{RandomSource G}.

(** [rand_isin()]. *)
Definition rand_isin : Rand G string :=
  draw cs <- choices_nonempty "A"%char isin_alphabet 12 in
  rret (string_of_list_ascii cs).

(** [f"2024-{random.randint(1,12):02d}-{random.randint(1,28):02d}"]. *)
Definition rand_settle_date : Rand G string :=
  draw m <- randint 1 12 in
  draw d <- randint 1 28 in
  rret ("2024-" +:+ PyStr.format_0d 2 m +:+ "-" +:+ PyStr.format_0d 2 d).

(** The body of the loop of [make_trades] at index [i]. *)
Definition make_trade (i : nat) : Rand G Trade :=
  draw v <- choice_nonempty "LSE" ["NYSE"; "XETRA"] in
  draw isn <- randint 0 9999999999 in
  draw acc <- randint 100 999 in
  draw sd <- rand_settle_date in
  draw q <- choice_nonempty 100 [200; 500; 1000] in
  rret {| obligation_id := "OBL" +:+ PyStr.format_0d 5 (Z.of_nat i + 1);
          venue := v;
          isin := "US" +:+ PyStr.format_0d 10 isn;
          account := "ACC" +:+ PyStr.str_of_Z acc;
          settle_date := sd;
          intended_qty := q |}.

(** [make_trades(n)]. *)
Definition make_trades (n : Z) : Rand G (list Trade) :=
  for_range make_trade 0 (Z.to_nat n).

End Generator.

(** The identifier [f"OBL{i+1:05d}"] that [make_trades] gives at index [i]. *)
Definition obligation_id_at (i : nat) : string :=
  "OBL" +:+ PyStr.format_0d 5 (Z.of_nat i + 1).

(** [as_bank_line(t)]. *)
Definition as_bank_line (t : Trade) : string :=
  obligation_id t +:+ "," +:+ venue t +:+ "," +:+ isin t +:+ ","
    +:+ account t +:+ "," +:+ settle_date t +:+ ","
    +:+ PyStr.str_of_Z (intended_qty t).

(** ** Market events *)

Inductive StatusCode := ACK | MATCHED | PARTIAL_SETTLED | SETTLED.

Definition code_name (c : StatusCode) : string :=
  match c with
  | ACK => "ACK"
  | MATCHED => "MATCHED"
  | PARTIAL_SETTLED => "PARTIAL_SETTLED"
  | SETTLED => "SETTLED"
  end.

(** The fields of one line of the market-event feed. *)
Record MarketEvent := {
  msg_id : string;
  seq_no : Z;
  code : StatusCode;
  ev_isin : string;
  ev_account : string;
  ev_settle_date : string;
  qty : Z;
  at_time : string
}.

(** [msgId,seq,code,isin,account,settleDate,qty,at]. *)
Definition market_line (e : MarketEvent) : string :=
  msg_id e +:+ "," +:+ PyStr.str_of_Z (seq_no e) +:+ ","
    +:+ code_name (code e) +:+ "," +:+ ev_isin e +:+ ","
    +:+ ev_account e +:+ "," +:+ ev_settle_date e +:+ ","
    +:+ PyStr.str_of_Z (qty e) +:+ "," +:+ at_time e.

Definition fixed_instant : string := "2024-01-01T00:00:00Z".

(** The event written by [as_market_line(t, msg_id, seq)]. *)
Definition matched_event (t : Trade) (m : string) (s : Z) : MarketEvent :=
  {| msg_id := m; seq_no := s; code := MATCHED; ev_isin := isin t;
     ev_account := account t; ev_settle_date := settle_date t;
     qty := intended_qty t; at_time := fixed_instant |}.

(** [as_market_line(t, msg_id, seq)]. *)
Definition as_market_line (t : Trade) (m : string) (s : Z) : string :=
  market_line (matched_event t m s).

(** ** Computations that draw random values and may raise *)

Definition RandE (G A : Type) : Type := G → option (A * G).

Definition eret {G A} (x : A) : RandE G A := λ g, Some (x, g).

Definition ebind {G A B} (m : RandE G A) (k : A → RandE G B) : RandE G B :=
  λ g, match m g with
       | Some (x, g') => k x g'
       | None => None
       end.

Definition lift {G A} (m : Rand G A) : RandE G A := λ g, Some (m g).

(** An optional drawing computation: [None] raises. *)
Definition lift_opt {G A} (m : option (Rand G A)) : RandE G A :=
  match m with
  | Some r => lift r
  | None => λ _, None
  end.

(** A lookup that raises when it fails. *)
Definition of_option {G A} (o : option A) : RandE G A :=
  λ g, (λ x, (x, g)) <$> o.

Notation "'try' x '<-' m 'in' k" := (ebind m (λ x, k))
  (at level 10, x name, m at level 200, k at level 200).

(** ** The dataset generator of the correctness harness *)

(** The dictionary [msg_seq]: obligation id to (message id, last sequence). *)
Abbreviation MsgSeq := (gmap string (string * Z)).

(** The first loop of [generate_dataset]: one MATCHED line per trade. *)
Definition primary_step (st : list string * MsgSeq) (t : Trade)
  : list string * MsgSeq :=
  let m := "M_" +:+ obligation_id t in
  (st.1 ++ [as_market_line t m 1], <[obligation_id t := (m, 1)]> st.2).

Definition primary_lines (trades : list Trade) : list string * MsgSeq :=
  foldl primary_step ([], ∅) trades.

(** The body of the duplicate loop: [trades[idx]], [msg_seq[...]], and the
    repeated line. *)
Definition duplicate_line (trades : list Trade) (ms : MsgSeq) (idx : nat)
  : option string :=
  t ← trades !! idx;
  '(m, s) ← ms !! obligation_id t;
  Some (as_market_line t m s).

(** The line the first loop writes for trade [t]. *)
Definition primary_line_of (t : Trade) : string :=
  as_market_line t ("M_" +:+ obligation_id t) 1.

(** The number of indices the duplicate loop runs over: the size [k] of
    the sample when [n_duplicates > 0], none otherwise. *)
Definition emitted_duplicates (n_duplicates : Z) (available : nat) : nat :=
  if 0 <? n_duplicates
  then Z.to_nat (Z.min n_duplicates (Z.of_nat available))
  else 0%nat.

(** What [generate_dataset] has built before it shuffles. *)
Record Draft := {
  d_trades : list Trade;
  d_primary : list string;
  d_duplicates : list string;
  d_unmatches : list string
}.

Section Dataset.
Context {G : Type} `{RandomSource G}.

(** The body of the unmatch loop at index [i]. *)
Definition fake_line (i : nat) : Rand G string :=
  draw isn <- rand_isin in
  draw sd <- rand_settle_date in
  draw q <- choice_nonempty 100 [200; 500] in
  let n := PyStr.str_of_Z (Z.of_nat i + 1) in
  rret (as_market_line
          {| obligation_id := "FAKE" +:+ n;
             venue := "OTC";
             isin := isn;
             account := "ACC" +:+ PyStr.str_of_Z (1000 + Z.of_nat i);
             settle_date := sd;
             intended_qty := q |}
          ("M_FAKE" +:+ n) 1).

(** [generate_dataset] up to the two shuffles. *)
Definition draft_dataset (n_trades n_unmatches n_duplicates : Z)
  : RandE G Draft :=
  try trades <- lift (make_trades n_trades) in
  let '(market_lines, ms) := primary_lines trades in
  try dup_indices <-
    (if 0 <? n_duplicates
     then lift_opt (sample (length trades)
                      (Z.min n_duplicates (Z.of_nat (length trades))))
     else eret []) in
  try dups <- of_option (mapM (duplicate_line trades ms) dup_indices) in
  try fakes <- lift (for_range fake_line 0 (Z.to_nat n_unmatches)) in
  eret {| d_trades := trades; d_primary := market_lines;
          d_duplicates := dups; d_unmatches := fakes |}.

(** [generate_dataset(n_trades, n_unmatches, n_duplicates)]: the bank
    lines, the market lines and the expected triple. *)
Definition generate_dataset (n_trades n_unmatches n_duplicates : Z)
  : RandE G (list string * list string * (Z * Z * Z)) :=
  try d <- draft_dataset n_trades n_unmatches n_duplicates in
  try bank_lines <- lift (shuffle (as_bank_line <$> d_trades d)) in
  try market_lines <-
    lift (shuffle (d_primary d ++ d_duplicates d ++ d_unmatches d)) in
  eret (bank_lines, market_lines, (n_trades, n_unmatches, n_duplicates)).

(** [random.seed(a)]: whatever state the process-wide generator was in
    is replaced by the state of the seed. *)
Definition seed (a : Z) : Rand G () := λ _, ((), seeded a).

(** One run of the generator: seed, then generate. *)
Definition seeded_run (a n_trades n_unmatches n_duplicates : Z)
  : RandE G (list string * list string * (Z * Z * Z)) :=
  try u <- lift (seed a) in
  generate_dataset n_trades n_unmatches n_duplicates.

(** The generation step of [main]. *)
Definition main_dataset
  : RandE G (list string * list string * (Z * Z * Z)) :=
  seeded_run 42 25 7 5.

End Dataset.

(** ** A small concrete random source

    A counter-driven source, used to run the generator on examples: value
    [g mod n] is drawn and the counter advances; samples and shuffles are
    rotations. *)

#[export] Instance counter_source : RandomSource Z := {|
  randbelow n g := (if 0 <? n then Z.abs g mod n else 0, Z.abs g + 1);
  randfloor n g := (if 0 <? n then (Z.abs g * 7) mod n else 0, Z.abs g + 1);
  sample_range n k g :=
    (take k (rotate (Z.to_nat (Z.abs g)) (seq 0 n)), Z.abs g + 1);
  shuffle_order n g := (rotate (Z.to_nat (Z.abs g)) (seq 0 n), Z.abs g + 1);
  seeded a := a
|}.

(** ** The process orchestrator ([run_kotlin_runner_and_wait])

    The orchestrator talks to three things outside the program: the clock,
    the status file the engine appends to, and the child process.  A
    [World] fixes what each of them answers: the value of the [k]-th call
    of [time.time()], what the [k]-th look at the status file finds, and
    whether the child exits when asked to terminate. *)

Inductive StatusObs :=
  | Absent                     (* [STATUS.exists()] is false *)
  | Content (text : string)    (* [STATUS.read_text()] returns [text] *)
  | Unreadable.                (* [STATUS.read_text()] raises *)

Record World := {
  clock : nat → Q;
  status_at : nat → StatusObs;
  obeys_terminate : bool
}.

Inductive ChildState := Running | Exited | Killed.

Inductive ProcAction := Terminate | WaitGrace | Kill.

(** What the orchestrator has done so far. *)
Record OrchState := {
  ticks : nat;                  (* calls of [time.time()] *)
  looks : nat;                  (* looks at the status file *)
  sleeps : nat;                 (* calls of [time.sleep(0.2)] *)
  actions : list ProcAction;    (* calls on [proc], oldest first *)
  child : ChildState
}.

(** A call either returns or raises. *)
Inductive Result (A : Type) :=
  | Ok (a : A)
  | Exn.
Arguments Ok {A} a.
Arguments Exn {A}.

Definition Triple : Type := Z * Z * Z.

(** The state right after [subprocess.Popen] has started the child. *)
Definition spawned : OrchState :=
  {| ticks := 0; looks := 0; sleeps := 0; actions := []; child := Running |}.

(** [time.time()]. *)
Definition time_time (w : World) (s : OrchState) : Q * OrchState :=
  (clock w (ticks s),
   {| ticks := S (ticks s); looks := looks s; sleeps := sleeps s;
      actions := actions s; child := child s |}).

(** [STATUS.read_text() if STATUS.exists() else None]. *)
Definition look (w : World) (s : OrchState)
  : Result (option string) * OrchState :=
  let s' := {| ticks := ticks s; looks := S (looks s); sleeps := sleeps s;
               actions := actions s; child := child s |} in
  match status_at w (looks s) with
  | Absent => (Ok None, s')
  | Content text => (Ok (Some text), s')
  | Unreadable => (Exn, s')
  end.

(** [time.sleep(0.2)]. *)
Definition sleep (s : OrchState) : OrchState :=
  {| ticks := ticks s; looks := looks s; sleeps := S (sleeps s);
     actions := actions s; child := child s |}.

(** [proc.terminate()]. *)
Definition terminate (s : OrchState) : OrchState :=
  {| ticks := ticks s; looks := looks s; sleeps := sleeps s;
     actions := actions s ++ [Terminate]; child := child s |}.

(** [proc.wait(timeout=5)]: returns when the child has exited, raises
    [TimeoutExpired] when it is still running after the grace period. *)
Definition wait_grace (w : World) (s : OrchState) : Result () * OrchState :=
  let after c := {| ticks := ticks s; looks := looks s; sleeps := sleeps s;
                    actions := actions s ++ [WaitGrace]; child := c |} in
  match child s with
  | Running =>
      if obeys_terminate w then (Ok (), after Exited) else (Exn, after Running)
  | c => (Ok (), after c)
  end.

(** [proc.kill()]. *)
Definition kill (s : OrchState) : OrchState :=
  {| ticks := ticks s; looks := looks s; sleeps := sleeps s;
     actions := actions s ++ [Kill];
     child := match child s with Running => Killed | c => c end |}.

(** The number of lines of [text] that satisfy [p]. *)
Definition count_lines (p : string → bool) (text : string) : Z :=
  Z.of_nat (length (filter (λ l, p l = true) (PyStr.splitlines text))).

Definition is_matched_line (line : string) : bool :=
  PyStr.startswith "StateChanged(" line && PyStr.contains "to=Matched" line.

Definition is_nomatch_line (line : string) : bool :=
  PyStr.startswith "NoMatch(" line.

Definition is_duplicate_line (line : string) : bool :=
  PyStr.startswith "DuplicateIgnored(" line.

(** [(matches, unmatches, duplicates)] of a status text. *)
Definition observed_counts (text : string) : Triple :=
  (count_lines is_matched_line text,
   count_lines is_nomatch_line text,
   count_lines is_duplicate_line text).

(** The [while] loop and the code after it, up to [fuel] iterations;
    [None] when the loop has not finished by then. *)
Fixpoint poll (fuel : nat) (w : World) (expected : Triple)
    (timeout_sec start : Q) (s : OrchState)
  : option (Result Triple * OrchState) :=
  match fuel with
  | O => None
  | S fuel' =>
      let '(now, s1) := time_time w s in
      if Qlt_le_dec (now - start) timeout_sec then
        match look w s1 with
        | (Exn, s2) => Some (Exn, s2)
        | (Ok (Some text), s2) =>
            if decide (observed_counts text = expected)
            then Some (Ok (observed_counts text), s2)
            else poll fuel' w expected timeout_sec start (sleep s2)
        | (Ok None, s2) =>
            poll fuel' w expected timeout_sec start (sleep s2)
        end
      else
        (* Timed out; return whatever we saw *)
        match look w s1 with
        | (Exn, s2) => Some (Exn, s2)
        | (Ok (Some text), s2) => Some (Ok (observed_counts text), s2)
        | (Ok None, s2) => Some (Ok (0, 0, 0), s2)
        end
  end.

(** The [finally] block. *)
Definition cleanup (w : World) (s : OrchState) : OrchState :=
  match wait_grace w (terminate s) with
  | (Ok _, s') => s'
  | (Exn, s') => kill s'
  end.

(** [run_kotlin_runner_and_wait(expected, timeout_sec)] once the child has
    been spawned: the result of the [try] body and the state after the
    [finally] block, which runs whether the body returned or raised. *)
Definition run_kotlin_runner_and_wait (fuel : nat) (w : World)
    (expected : Triple) (timeout_sec : Q)
  : option (Result Triple * OrchState) :=
  let '(start, s1) := time_time w spawned in
  match poll fuel w expected timeout_sec start s1 with
  | Some (r, s2) => Some (r, cleanup w s2)
  | None => None
  end.

(** A clock that advances 0.2 s per reading. *)
Definition steady_clock (k : nat) : Q := inject_Z (Z.of_nat k) * (2 # 10).

(** A status file that holds [text] from the [n]-th look on and is empty
    before. *)
Definition appears_at (n : nat) (text : string) (k : nat) : StatusObs :=
  if (k <? n)%nat then Content "" else Content text.

(** The [k]-th look neither raises nor shows the expected counts, so the
    loop sleeps and goes round again. *)
Definition keeps_polling (w : World) (expected : Triple) (k : nat) : Prop :=
  match status_at w k with
  | Content text => observed_counts text ≠ expected
  | Absent => True
  | Unreadable => False
  end.

(** The counts the code after the loop returns for what it finds: those of
    the text when the file exists, zeros when it does not. *)
Definition counts_at_timeout (o : StatusObs) : Triple :=
  match o with
  | Content text => observed_counts text
  | _ => (0, 0, 0)
  end.

(** Example worlds. *)
Definition status_done : string :=
  "StateChanged(OBL00001, from=New, to=Matched)" +:+ String "010"
    ("NoMatch(M_FAKE1)" +:+ String "010" "").

Definition status_partial : string :=
  "NoMatch(M_FAKE1)" +:+ String "010" "".

Definition world_done : World :=
  {| clock := steady_clock; status_at := appears_at 0 status_done;
     obeys_terminate := false |}.

Definition world_stuck : World :=
  {| clock := steady_clock; status_at := λ _, Content status_partial;
     obeys_terminate := true |}.

Definition world_unreadable : World :=
  {| clock := steady_clock; status_at := λ _, Unreadable;
     obeys_terminate := false |}.

(** ** The metrics collector ([_parse_kotlin_metrics])  *)

(** A Python number: the values of the dictionary [profiling_data]. *)
Inductive PyNum :=
  | PInt (z : Z)
  | PFloat (q : Q).

Definition num_value (v : PyNum) : Q :=
  match v with
  | PInt z => inject_Z z
  | PFloat q => q
  end.

Module PyNumParse.

Definition nonempty (s : string) : bool :=
  match s with
  | EmptyString => false
  | _ => true
  end.

(** An optional sign and what follows it. *)
Definition signed (s : string) : bool * string :=
  match s with
  | String "-" r => (true, r)
  | String "+" r => (false, r)
  | _ => (false, s)
  end.

(** [int(s)] on decimal literals (optional sign, digits, surrounding
    white space); [None] is the [ValueError]. *)
Definition py_int (s : string) : option Z :=
  let '(neg, body) := signed (PyStr.strip s) in
  if nonempty body then
    n ← PyStr.N_of_digits body;
    Some (if neg then - Z.of_N n else Z.of_N n)
  else None.

(** [float(s)] on decimal literals (optional sign, digits with an
    optional fraction, surrounding white space); the value is the
    rational the literal denotes. [None] is the [ValueError]. *)
Definition py_float (s : string) : option Q :=
  let '(neg, body) := signed (PyStr.strip s) in
  let '(ip, fp) :=
    match PyStr.split_once "." body with
    | Some (ip, fp) => (ip, fp)
    | None => (body, EmptyString)
    end in
  if nonempty ip || nonempty fp then
    i ← PyStr.N_of_digits ip;
    f ← PyStr.N_of_digits fp;
    let den := Pos.pow 10 (Pos.of_nat (String.length fp)) in
    let den := if nonempty fp then den else 1%positive in
    let num := Z.of_N i * Z.pos den + Z.of_N f in
    Some (Qmake (if neg then - num else num) den)
  else None.

End PyNumParse.

Definition metrics_marker : string := "BENCHMARK_METRICS:".

(** The dictionary [profiling_data] as it is initialised. *)
Definition zero_metrics : gmap string PyNum :=
  <["memory_mb" := PFloat 0]>
    (<["gc_time_ms" := PFloat 0]>
       (<["cpu_time_ms" := PFloat 0]>
          (<["peak_entities" := PInt 0]> ∅))).

(** An assignment inside [try: ... except ValueError: pass]. *)
Definition store_parsed {A} (parse : string → option A) (inj : A → PyNum)
    (key value : string) (d : gmap string PyNum) : gmap string PyNum :=
  match parse value with
  | Some x => <[key := inj x]> d
  | None => d
  end.

(** The body of the loop over the pairs. *)
Definition apply_pair (d : gmap string PyNum) (pair : string)
  : gmap string PyNum :=
  match PyStr.split_once "=" pair with
  | None => d
  | Some (k, v) =>
      let key := PyStr.strip k in
      let value := PyStr.strip v in
      if decide (key = "memory_mb")
      then store_parsed PyNumParse.py_float PFloat "memory_mb" value d
      else if decide (key = "gc_time_ms")
      then store_parsed PyNumParse.py_float PFloat "gc_time_ms" value d
      else if decide (key = "duration_ms")
      then store_parsed PyNumParse.py_float PFloat "cpu_time_ms" value d
      else if decide (key = "peak_entities")
      then store_parsed PyNumParse.py_int PInt "peak_entities" value d
      else d
  end.

(** What is done with the marker line. *)
Definition parse_metrics_line (d : gmap string PyNum) (line : string)
  : gmap string PyNum :=
  let metrics_str := PyStr.strip (PyStr.replace metrics_marker "" line) in
  foldl apply_pair d (PyStr.split ", " metrics_str).

(** The loop over the lines, left at the first marker line. *)
Fixpoint scan_metrics (d : gmap string PyNum) (lines : list string)
  : gmap string PyNum :=
  match lines with
  | [] => d
  | line :: rest =>
      if PyStr.startswith metrics_marker line
      then parse_metrics_line d line
      else scan_metrics d rest
  end.

(** [_parse_kotlin_metrics(stdout)]. *)
Definition _parse_kotlin_metrics (stdout : string) : gmap string PyNum :=
  scan_metrics zero_metrics (PyStr.splitlines stdout).

(** No line of the list begins with the marker. *)
Definition no_marker (lines : list string) : Prop :=
  Forall (λ l, PyStr.startswith metrics_marker l = false) lines.

(** The four keys of [profiling_data]. *)
Definition metric_keys : list string :=
  ["memory_mb"; "gc_time_ms"; "cpu_time_ms"; "peak_entities"].

(** [d.get(key, default)]. *)
Definition dict_get (d : gmap string PyNum) (key : string) (default : PyNum)
  : PyNum :=
  match d !! key with Some v => v | None => default end.

(** The line of the specification's example and the record it denotes. *)
Definition example_metrics_line : string :=
  "BENCHMARK_METRICS: memory_mb=12.5, gc_time_ms=3.2, duration_ms=100.0, peak_entities=42".

Definition example_metrics : gmap string PyNum :=
  <["memory_mb" := PFloat 12.5]>
    (<["gc_time_ms" := PFloat 3.2]>
       (<["cpu_time_ms" := PFloat 100.0]>
          (<["peak_entities" := PInt 42]> ∅))).

(** ** The benchmark runner ([benchmark.py]) *)

Record BenchmarkConfig := {
  name : string;
  description : string;
  num_obligations : Z;
  num_status_events : Z;
  num_duplicates : Z;
  num_unmatches : Z;
  warmup_iterations : Z;
  measurement_iterations : Z;
  timeout_sec : Q
}.

(** The status of the additional event at position [i]. *)
Definition cycle_code (i : nat) : StatusCode :=
  if Z.of_nat i mod 3 =? 0 then PARTIAL_SETTLED
  else if Z.of_nat i mod 3 =? 1 then SETTLED
  else ACK.

(** The line built in the loop of additional events, as its fields. *)
Definition additional_event (t : Trade) (m : string) (new_seq : Z) (i : nat)
  : MarketEvent :=
  let ev c q :=
    {| msg_id := m; seq_no := new_seq; code := c; ev_isin := isin t;
       ev_account := account t; ev_settle_date := settle_date t;
       qty := q; at_time := fixed_instant |} in
  if Z.of_nat i mod 3 =? 0 then ev PARTIAL_SETTLED (intended_qty t `div` 4)
  else if Z.of_nat i mod 3 =? 1 then ev SETTLED (intended_qty t)
  else ev ACK (intended_qty t).

(** The loop of primary events of the benchmark generator. *)
Definition bench_primary_step (st : list MarketEvent * MsgSeq) (t : Trade)
  : list MarketEvent * MsgSeq :=
  let m := "M_" +:+ obligation_id t in
  (st.1 ++ [matched_event t m 1], <[obligation_id t := (m, 1)]> st.2).

Definition bench_primary (trades : list Trade) : list MarketEvent * MsgSeq :=
  foldl bench_primary_step ([], ∅) trades.

(** How many events in [es] carry the message id [m]. *)
Definition count_msg (m : string) (es : list MarketEvent) : Z :=
  Z.of_nat (length (filter (λ e, msg_id e = m) es)).

Section BenchDataset.
Context {G : Type} `{RandomSource G}.

(** The body of the loop of additional events at index [i]. *)
Definition additional_step (trades : list Trade) (i : nat)
    (st : list MarketEvent * MsgSeq) : RandE G (list MarketEvent * MsgSeq) :=
  try t <- lift_opt (choice trades) in
  try entry <- of_option (st.2 !! obligation_id t) in
  let new_seq := entry.2 + 1 in
  eret (st.1 ++ [additional_event t entry.1 new_seq i],
        <[obligation_id t := (entry.1, new_seq)]> st.2).

(** [for i in range(start, start + n)] over that body. *)
Fixpoint additional_loop (trades : list Trade) (start n : nat)
    (st : list MarketEvent * MsgSeq) : RandE G (list MarketEvent * MsgSeq) :=
  match n with
  | O => eret st
  | S n' =>
      try st' <- additional_step trades start st in
      additional_loop trades (S start) n' st'
  end.

(** [_generate_dataset] up to the duplicates: the trades and the events
    of the two loops. *)
Definition bench_events (config : BenchmarkConfig)
  : RandE G (list Trade * list MarketEvent) :=
  try trades <- lift (make_trades (num_obligations config)) in
  let additional_events :=
    num_status_events config - Z.of_nat (length trades) in
  try st <- additional_loop trades 0 (Z.to_nat additional_events)
              (bench_primary trades) in
  eret (trades, st.1).

(** The body of the unmatch loop at index [i]. *)
Definition bench_fake_event (i : nat) : Rand G MarketEvent :=
  draw r <- randint 100000 999999 in
  rret {| msg_id := "FAKE_" +:+ PyStr.str_of_Z (Z.of_nat i); seq_no := 1;
          code := MATCHED; ev_isin := "FAKE" +:+ PyStr.str_of_Z r;
          ev_account := "ACC999"; ev_settle_date := "2024-12-31";
          qty := 100; at_time := fixed_instant |}.

(** [_generate_dataset(config)]. *)
Definition _generate_dataset (config : BenchmarkConfig)
  : RandE G (list string * list string) :=
  try te <- bench_events config in
  let bank_lines := as_bank_line <$> te.1 in
  let market := te.2 in
  try dup_indices <-
    lift_opt (sample (length market)
                (Z.min (num_duplicates config) (Z.of_nat (length market)))) in
  try dups <- of_option (mapM (λ idx, market !! idx) dup_indices) in
  try fakes <- lift (for_range bench_fake_event 0
                       (Z.to_nat (num_unmatches config))) in
  try market_lines <- lift (shuffle (market ++ dups ++ fakes)) in
  eret (bank_lines, market_line <$> market_lines).

End BenchDataset.

(** ** Measurements *)

Record PerformanceMetrics := {
  scenario_name : string;
  obligations_count : Z;
  status_events_count : Z;
  duration_ms : Q;
  throughput_ops_per_sec : Q;
  memory_used_mb : PyNum;
  gc_time_ms : PyNum;
  cpu_time_ms : PyNum;
  peak_entities : PyNum
}.

Record BenchmarkResult := {
  config : BenchmarkConfig;
  metrics : list PerformanceMetrics;
  mean_metrics : PerformanceMetrics;
  timestamp : string
}.

(** How one launch of the engine ends. *)
Inductive EngineRun :=
  | Completed (stdout : string)
  | TimedOut                     (* [communicate] raises [TimeoutExpired] *)
  | SpawnFailed.                 (* [Popen] raises *)

(** What the harness observes around one launch: the two readings of
    [time.perf_counter()] and the engine's run. *)
Record RunObs := {
  start_time : Q;
  end_time : Q;
  engine : EngineRun
}.

(** [_run_kotlin_with_profiling(config, measure)]; [None] when it raises. *)
Definition _run_kotlin_with_profiling (obs : RunObs) (measure : bool)
  : option (gmap string PyNum) :=
  match engine obs with
  | Completed stdout =>
      Some (if measure then _parse_kotlin_metrics stdout else ∅)
  | TimedOut => None
  | SpawnFailed => None
  end.

(** The record built at the end of [_run_single_measurement]. *)
Definition measured (config : BenchmarkConfig) (obs : RunObs)
    (profiling_data : gmap string PyNum) : PerformanceMetrics :=
  let duration := ((end_time obs - start_time obs) * 1000)%Q in
  let throughput :=
    if Qlt_le_dec 0 duration
    then (inject_Z (num_status_events config) / (duration / 1000))%Q
    else 0%Q in
  {| scenario_name := name config;
     obligations_count := num_obligations config;
     status_events_count := num_status_events config;
     duration_ms := duration;
     throughput_ops_per_sec := throughput;
     memory_used_mb := dict_get profiling_data "memory_mb" (PFloat 0);
     gc_time_ms := dict_get profiling_data "gc_time_ms" (PFloat 0);
     cpu_time_ms := dict_get profiling_data "cpu_time_ms" (PFloat duration);
     peak_entities :=
       dict_get profiling_data "peak_entities" (PInt (num_obligations config))
  |}.

(** [statistics.mean]: [None] is the [StatisticsError] on no data. *)
Definition Qsum (xs : list Q) : Q := foldr Qplus 0%Q xs.

Definition mean (xs : list Q) : option Q :=
  match xs with
  | [] => None
  | _ => Some (Qsum xs / inject_Z (Z.of_nat (length xs)))%Q
  end.

(** [int(x)] of a float: truncation toward zero. *)
Definition py_trunc (q : Q) : Z := Z.quot (Qnum q) (Z.pos (Qden q)).

(** [statistics.variance]: the sample variance, [None] below two values. *)
Definition variance (xs : list Q) : option Q :=
  match xs with
  | [] | [_] => None
  | _ =>
      let m := (Qsum xs / inject_Z (Z.of_nat (length xs)))%Q in
      Some (Qsum ((λ x, (x - m) * (x - m))%Q <$> xs)
            / inject_Z (Z.of_nat (length xs) - 1))%Q
  end.

(** [statistics.stdev]: the square root of the sample variance. *)
Definition stdev (xs : list Q) : option R :=
  (λ v, sqrt (Q2R v)) <$> variance xs.

(** [_calculate_mean_metrics(config, metrics)]. *)
Definition _calculate_mean_metrics (config : BenchmarkConfig)
    (ms : list PerformanceMetrics) : option PerformanceMetrics :=
  d ← mean (duration_ms <$> ms);
  t ← mean (throughput_ops_per_sec <$> ms);
  m ← mean ((λ x, num_value (memory_used_mb x)) <$> ms);
  gc ← mean ((λ x, num_value (gc_time_ms x)) <$> ms);
  c ← mean ((λ x, num_value (cpu_time_ms x)) <$> ms);
  p ← mean ((λ x, num_value (peak_entities x)) <$> ms);
  Some {| scenario_name := name config;
          obligations_count := num_obligations config;
          status_events_count := num_status_events config;
          duration_ms := d;
          throughput_ops_per_sec := t;
          memory_used_mb := PFloat m;
          gc_time_ms := PFloat gc;
          cpu_time_ms := PFloat c;
          peak_entities := PInt (py_trunc p) |}.

(** The figure [_print_summary] prints as [Throughput StdDev], printed
    only when there is more than one measurement. *)
Definition throughput_stdev (r : BenchmarkResult) : option R :=
  if bool_decide (1 < length (metrics r))%nat
  then stdev (throughput_ops_per_sec <$> metrics r)
  else None.

Section BenchmarkRun.
Context {G : Type} `{RandomSource G}.

(** [_run_single_measurement(config, warmup)] on the launch [obs]. *)
Definition _run_single_measurement (config : BenchmarkConfig)
    (warmup : bool) (obs : RunObs) : RandE G (option PerformanceMetrics) :=
  if warmup then
    try ds <- _generate_dataset config in
    try pd <- of_option (_run_kotlin_with_profiling obs false) in
    eret None
  else
    try ds <- _generate_dataset config in
    try profiling_data <- of_option (_run_kotlin_with_profiling obs true) in
    eret (Some (measured config obs profiling_data)).

(** The warm-up loop; [run] numbers the launches of the engine. *)
Fixpoint warmup_loop (config : BenchmarkConfig) (world : nat → RunObs)
    (run n : nat) : RandE G () :=
  match n with
  | O => eret ()
  | S n' =>
      try r <- _run_single_measurement config true (world run) in
      warmup_loop config world (S run) n'
  end.

(** The measurement loop: every metric is appended to [acc]; using a
    missing metric raises. *)
Fixpoint measurement_loop (config : BenchmarkConfig) (world : nat → RunObs)
    (run n : nat) (acc : list PerformanceMetrics)
  : RandE G (list PerformanceMetrics) :=
  match n with
  | O => eret acc
  | S n' =>
      try r <- _run_single_measurement config false (world run) in
      try metric <- of_option r in
      measurement_loop config world (S run) n' (acc ++ [metric])
  end.

(** [run_benchmark(config)]; [now] is [datetime.now().isoformat()]. *)
Definition run_benchmark (cfg : BenchmarkConfig) (world : nat → RunObs)
    (now : string) : RandE G BenchmarkResult :=
  let w := Z.to_nat (warmup_iterations cfg) in
  try u <- warmup_loop cfg world 0 w in
  try ms <- measurement_loop cfg world w
              (Z.to_nat (measurement_iterations cfg)) [] in
  try mm <- of_option (_calculate_mean_metrics cfg ms) in
  eret {| config := cfg; metrics := ms; mean_metrics := mm;
          timestamp := now |}.

End BenchmarkRun.

(** The first scenario of [create_benchmark_scenarios]. *)
Definition micro_config : BenchmarkConfig :=
  {| name := "micro";
     description := "Micro benchmark: minimal dataset for baseline";
     num_obligations := 10; num_status_events := 20;
     num_duplicates := 2; num_unmatches := 1;
     warmup_iterations := 3; measurement_iterations := 5;
     timeout_sec := 60 |}.

(** A launch that takes 0.25 s and prints no metrics line. *)
Definition silent_run : RunObs :=
  {| start_time := 1; end_time := 1.25;
     engine := Completed ("Engine started" +:+ String "010" "") |}.

(** A launch that takes 0.25 s and reports [peak] peak entities. *)
Definition reporting_run (peak : string) : RunObs :=
  {| start_time := 1; end_time := 1.25;
     engine := Completed
       ("BENCHMARK_METRICS: memory_mb=12.5, gc_time_ms=3.2, duration_ms=100.0, peak_entities="
          +:+ peak) |}.

(** The message id [f"M_{t.obligation_id}"] of a trade. *)
Definition msg_of (t : Trade) : string := "M_" +:+ obligation_id t.

(** The primary event of a trade. *)
Definition primary_event_of (t : Trade) : MarketEvent :=
  matched_event t (msg_of t) 1.

(** The dictionary records, for every trade, its message id and the
    number of events written under it so far. *)
Definition tracks (trades : list Trade) (st : list MarketEvent * MsgSeq)
  : Prop :=
  ∀ t, t ∈ trades →
       st.2 !! obligation_id t = Some (msg_of t, count_msg (msg_of t) st.1).

(** The events that one additional event at index [i] may be, after the
    events [before]. *)
Definition extends (trades : list Trade) (before : list MarketEvent)
    (i : nat) (e : MarketEvent) : Prop :=
  ∃ t, t ∈ trades
       ∧ e = additional_event t (msg_of t)
               (count_msg (msg_of t) before + 1) i.

(** A minimal scenario measured twice, and a world in which the engine
    reports 1 peak entity in the first launch and 2 in the second. *)
Definition two_runs_config : BenchmarkConfig :=
  {| name := "pair"; description := "two measurements";
     num_obligations := 1; num_status_events := 1;
     num_duplicates := 0; num_unmatches := 0;
     warmup_iterations := 0; measurement_iterations := 2;
     timeout_sec := 60 |}.

Definition two_runs_world (run : nat) : RunObs :=
  match run with
  | O => reporting_run "1"
  | _ => reporting_run "2"
  end.

(** ** Further definitions for the generator *)

Section FakeTrades.
Context {G : Type} `{RandomSource G}.

(** The [Trade] built in the unmatch loop at index [i]. *)
Definition fake_trade (i : nat) : Rand G Trade :=
  draw isn <- rand_isin in
  draw sd <- rand_settle_date in
  draw q <- choice_nonempty 100 [200; 500] in
  rret {| obligation_id := "FAKE" +:+ PyStr.str_of_Z (Z.of_nat i + 1);
          venue := "OTC";
          isin := isn;
          account := "ACC" +:+ PyStr.str_of_Z (1000 + Z.of_nat i);
          settle_date := sd;
          intended_qty := q |}.

End FakeTrades.

(** The first trade of [make_trades 2] from the counter source at 42. *)
Definition sample_trade : Trade :=
  {| obligation_id := "OBL00001"; venue := "LSE"; isin := "US0000000043";
     account := "ACC144"; settle_date := "2024-10-19";
     intended_qty := 1000 |}.

(** ** The channel files ([write_files])

    The runtime directory as a map from file name to content. *)

Definition BANK : string := "bank.txt".
Definition MARKET : string := "market.txt".
Definition STATUS : string := "status.txt".

Definition newline : string := String "010" EmptyString.

(** [p.unlink()] guarded by [p.exists()]. *)
Definition unlink_if_exists (p : string) (fs : gmap string string)
  : gmap string string :=
  match fs !! p with
  | Some _ => delete p fs
  | None => fs
  end.

(** [p.write_text(s)]. *)
Definition write_text (p s : string) (fs : gmap string string)
  : gmap string string :=
  <[p := s]> fs.

(** [p.touch()]: an existing file keeps its content. *)
Definition touch (p : string) (fs : gmap string string)
  : gmap string string :=
  match fs !! p with
  | Some _ => fs
  | None => <[p := EmptyString]> fs
  end.

(** ["\n".join(lines) + ("\n" if lines else "")]. *)
Definition file_text (lines : list string) : string :=
  PyStr.join newline lines +:+
  match lines with
  | [] => EmptyString
  | _ => newline
  end.

(** [write_files(bank_lines, market_lines)]. *)
Definition write_files (bank_lines market_lines : list string)
    (fs : gmap string string) : gmap string string :=
  let fs := foldl (λ fs p, unlink_if_exists p fs) fs [BANK; MARKET; STATUS] in
  let fs := write_text BANK (file_text bank_lines) fs in
  let fs := write_text MARKET (file_text market_lines) fs in
  touch STATUS fs.

(** The line holds none of the characters at which [splitlines] cuts. *)
Fixpoint no_linebreak (s : string) : bool :=
  match s with
  | EmptyString => true
  | String c s' => negb (PyStr.is_linebreak c) && no_linebreak s'
  end.

(** ** Shape of the metrics dictionary *)

(** The dictionary has exactly the four keys; the three times and sizes
    are floats and the entity count is an int. *)
Definition well_formed_metrics (d : gmap string PyNum) : Prop :=
  (∃ q, d !! "memory_mb" = Some (PFloat q))
  ∧ (∃ q, d !! "gc_time_ms" = Some (PFloat q))
  ∧ (∃ q, d !! "cpu_time_ms" = Some (PFloat q))
  ∧ (∃ z, d !! "peak_entities" = Some (PInt z))
  ∧ ∀ k, is_Some (d !! k) → k ∈ metric_keys.



(** ** Further definitions for the benchmark runner *)

(** [create_benchmark_scenarios()]. *)
Definition create_benchmark_scenarios : list BenchmarkConfig :=
  [ micro_config;
    {| name := "small";
       description := "Small dataset: typical single-batch processing";
       num_obligations := 100; num_status_events := 250;
       num_duplicates := 10; num_unmatches := 5;
       warmup_iterations := 3; measurement_iterations := 10;
       timeout_sec := 60 |};
    {| name := "medium";
       description := "Medium dataset: moderate real-world load";
       num_obligations := 1000; num_status_events := 2500;
       num_duplicates := 50; num_unmatches := 25;
       warmup_iterations := 3; measurement_iterations := 5;
       timeout_sec := 60 |};
    {| name := "large";
       description := "Large dataset: high-volume processing test";
       num_obligations := 5000; num_status_events := 12500;
       num_duplicates := 250; num_unmatches := 100;
       warmup_iterations := 3; measurement_iterations := 3;
       timeout_sec := 120 |};
    {| name := "xl";
       description := "Extra large: stress test for scalability limits";
       num_obligations := 10000; num_status_events := 25000;
       num_duplicates := 500; num_unmatches := 200;
       warmup_iterations := 3; measurement_iterations := 2;
       timeout_sec := 300 |};
    {| name := "throughput";
       description := "Throughput test: many events per obligation";
       num_obligations := 500; num_status_events := 5000;
       num_duplicates := 100; num_unmatches := 50;
       warmup_iterations := 3; measurement_iterations := 5;
       timeout_sec := 60 |};
    {| name := "memory";
       description := "Memory test: many obligations, few events each";
       num_obligations := 5000; num_status_events := 5500;
       num_duplicates := 25; num_unmatches := 25;
       warmup_iterations := 3; measurement_iterations := 3;
       timeout_sec := 60 |} ].

(** What [_generate_dataset] has built before it shuffles. *)
Record BenchDraft := {
  b_trades : list Trade;
  b_events : list MarketEvent;       (* primary and additional events *)
  b_duplicates : list MarketEvent;
  b_unmatches : list MarketEvent
}.

Section BenchDraftDef.
Context {G : Type} `{RandomSource G}.

(** [_generate_dataset] up to the shuffle. *)
Definition bench_draft (config : BenchmarkConfig) : RandE G BenchDraft :=
  try te <- bench_events config in
  let market := te.2 in
  try dup_indices <-
    lift_opt (sample (length market)
                (Z.min (num_duplicates config) (Z.of_nat (length market)))) in
  try dups <- of_option (mapM (λ idx, market !! idx) dup_indices) in
  try fakes <- lift (for_range bench_fake_event 0
                       (Z.to_nat (num_unmatches config))) in
  eret {| b_trades := te.1; b_events := market;
          b_duplicates := dups; b_unmatches := fakes |}.

End BenchDraftDef.

(** The message id and sequence number of an event. *)
Definition event_key (e : MarketEvent) : string * Z := (msg_id e, seq_no e).

(** Each event carries the number of earlier events under its message id,
    plus one. *)
Definition numbered (es : list MarketEvent) : Prop :=
  ∀ i e, es !! i = Some e →
         seq_no e = count_msg (msg_id e) (take i es) + 1.

(** ** Comparison of two results ([analyze_benchmarks.py])

    [compare_benchmarks] prints, for each of four fields of the two
    [mean_metrics], the percentage [((m2[f] / m1[f]) - 1) * 100].  The
    figures are modelled before they are formatted. *)

(** [a / b] on numbers; [None] is the [ZeroDivisionError]. *)
Definition py_div (a b : Q) : option Q :=
  if Qeq_bool b 0 then None else Some (a / b)%Q.

(** [((new / base) - 1) * 100]. *)
Definition percent_change (base new : Q) : option Q :=
  r ← py_div new base;
  Some ((r - 1) * 100)%Q.

(** The four percentages of [compare_benchmarks(file1, file2)], computed
    in the order printed: throughput, duration, memory, GC time. *)
Definition comparison_deltas (m1 m2 : PerformanceMetrics)
  : option (Q * Q * Q * Q) :=
  t ← percent_change (throughput_ops_per_sec m1) (throughput_ops_per_sec m2);
  d ← percent_change (duration_ms m1) (duration_ms m2);
  m ← percent_change (num_value (memory_used_mb m1))
        (num_value (memory_used_mb m2));
  gc ← percent_change (num_value (gc_time_ms m1)) (num_value (gc_time_ms m2));
  Some (t, d, m, gc).

(** The text is not empty and its last character is a line feed. *)
Fixpoint ends_with_newline (s : string) : bool :=
  match s with
  | EmptyString => false
  | String c EmptyString => bool_decide (c = "010"%char)
  | String _ s' => ends_with_newline s'
  end.

(** A world in which no launch prints a metrics line. *)
Definition silent_world (run : nat) : RunObs := silent_run.

(** * Properties *)

(** ** Decimal formatting *)

Lemma N_of_digits_str_of_N (n : N) :
  PyStr.N_of_digits (PyStr.str_of_N n) = Some n.
Proof.
  unfold PyStr.N_of_digits, PyStr.str_of_N.
  rewrite NilEmpty.usu. simpl. f_equal. apply Unsigned.of_to.
Qed.

Lemma N_of_digits_zeros (k : nat) (s : string) :
  PyStr.N_of_digits (PyStr.zeros k +:+ s) = PyStr.N_of_digits s.
Proof.
  induction k as [|k IH]; [done|].
  unfold PyStr.N_of_digits in *. simpl.
  destruct (NilEmpty.uint_of_string (PyStr.zeros k +:+ s)) as [d|] eqn:E1;
    destruct (NilEmpty.uint_of_string s) as [d'|] eqn:E2;
    simpl in *; try done.
Qed.

Lemma N_of_digits_format_0d (w : nat) (z : Z) :
  0 <= z → PyStr.N_of_digits (PyStr.format_0d w z) = Some (Z.to_N z).
Proof.
  intros Hz. unfold PyStr.format_0d.
  destruct (Z.ltb_spec z 0) as [?|_]; [lia|].
  rewrite N_of_digits_zeros, N_of_digits_str_of_N.
  f_equal. lia.
Qed.

Lemma format_0d_inj (w : nat) (a b : Z) :
  0 <= a → 0 <= b → PyStr.format_0d w a = PyStr.format_0d w b → a = b.
Proof.
  intros Ha Hb E.
  pose proof (N_of_digits_format_0d w a Ha) as Ea.
  pose proof (N_of_digits_format_0d w b Hb) as Eb.
  rewrite E in Ea. rewrite Ea in Eb. injection Eb. lia.
Qed.

Lemma string_app_inv_head (p s t : string) : p +:+ s = p +:+ t → s = t.
Proof. induction p as [|c p IH]; simpl; [done|]. intros [=]. auto. Qed.

(** ** Loops that draw *)

Section Loops.
Context {G A : Type}.
Implicit Types (body : nat → Rand G A) (g : G).

Lemma for_range_S body start n g :
  for_range body start (S n) g
  = let '(x, g1) := body start g in
    let '(xs, g2) := for_range body (S start) n g1 in
    (x :: xs, g2).
Proof. reflexivity. Qed.

Lemma for_range_length body start n g :
  length (for_range body start n g).1 = n.
Proof.
  revert start g. induction n as [|n IH]; intros start g; [done|].
  simpl. unfold rbind, rret.
  destruct (body start g) as [x g1].
  specialize (IH (S start) g1).
  destruct (for_range body (S start) n g1) as [xs g2].
  simpl in *. by rewrite IH.
Qed.

(** A projection of the loop's results that does not depend on the
    draws is the projection of the indices. *)
Lemma for_range_fmap {B} (f : A → B) (h : nat → B) body start n g :
  (∀ i g', f (body i g').1 = h i) →
  f <$> (for_range body start n g).1 = h <$> seq start n.
Proof.
  intros Hf. revert start g.
  induction n as [|n IH]; intros start g; [done|].
  rewrite for_range_S.
  pose proof (Hf start g) as Hx.
  destruct (body start g) as [x g1].
  specialize (IH (S start) g1).
  destruct (for_range body (S start) n g1) as [xs g2].
  cbn [fst seq] in *. rewrite !fmap_cons. by f_equal.
Qed.
End Loops.

(** ** Obligations *)

Section ObligationFacts.
Context {G : Type} `{RandomSource G}.

Lemma make_trade_id (i : nat) (g : G) :
  obligation_id (make_trade i g).1 = obligation_id_at i.
Proof.
  unfold make_trade, rbind, rret.
  repeat match goal with
         | |- context [let '(_, _) := ?m in _] => destruct m
         end.
  reflexivity.
Qed.

Lemma make_trades_ids (n : Z) (g : G) :
  obligation_id <$> (make_trades n g).1
  = obligation_id_at <$> seq 0 (Z.to_nat n).
Proof. apply for_range_fmap. apply make_trade_id. Qed.

Lemma make_trades_length (n : Z) (g : G) :
  length (make_trades n g).1 = Z.to_nat n.
Proof. apply for_range_length. Qed.

Lemma obligation_id_at_inj : Inj (=) (=) obligation_id_at.
Proof.
  intros i j E. unfold obligation_id_at in E.
  apply string_app_inv_head in E.
  apply format_0d_inj in E; lia.
Qed.

Lemma make_trades_ids_NoDup (n : Z) (g : G) :
  NoDup (obligation_id <$> (make_trades n g).1).
Proof.
  rewrite make_trades_ids.
  apply (@NoDup_fmap_2 _ _ obligation_id_at obligation_id_at_inj). apply NoDup_seq.
Qed.

(** C3: for a non-negative count [n], [make_trades n] returns exactly [n]
    trades and no two of them share an obligation identifier, whatever
    the generator draws. *)
Theorem make_trades_count_and_unique_ids (n : Z) (g : G) :
  0 <= n →
  Z.of_nat (length (make_trades n g).1) = n
  ∧ NoDup (obligation_id <$> (make_trades n g).1).
Proof.
  intros Hn. split.
  - rewrite make_trades_length. lia.
  - apply make_trades_ids_NoDup.
Qed.
End ObligationFacts.

Lemma make_trades_count_and_unique_ids_witness :
  0 <= 4
  ∧ Z.of_nat (length (make_trades 4 (seeded (G:=Z) 42)).1) = 4
  ∧ NoDup (obligation_id <$> (make_trades 4 (seeded (G:=Z) 42)).1).
Proof.
  split; [lia|].
  apply (make_trades_count_and_unique_ids (G:=Z) 4 (seeded 42)). lia.
Defined.

(** ** The counter source obeys the laws of the library *)

Lemma rotate_Permutation {A} (n : nat) (l : list A) : rotate n l ≡ₚ l.
Proof.
  unfold rotate. rewrite Permutation_app_comm. by rewrite take_drop.
Qed.

#[export] Instance counter_source_laws : RandomSourceLaws Z.
Proof.
  split.
  - intros n g Hn. simpl. destruct (Z.ltb_spec 0 n); [|lia].
    apply Z.mod_pos_bound. lia.
  - intros n g Hn. simpl. destruct (Z.ltb_spec 0 n); [|lia].
    apply Z.mod_pos_bound. lia.
  - intros n k g Hk. simpl.
    rewrite length_take, length_rotate, length_seq. lia.
  - intros n k g i Hk Hi. simpl in Hi.
    apply elem_of_take in Hi as (j & Hj & _).
    apply list_elem_of_lookup_2 in Hj.
    apply elem_of_rotate, elem_of_seq in Hj. lia.
  - intros n k g Hk. simpl.
    eapply sublist_NoDup; [|apply sublist_take].
    rewrite rotate_Permutation. apply NoDup_seq.
  - intros n g. simpl. apply rotate_Permutation.
Qed.

(** ** The dataset of the correctness harness *)

Lemma primary_lines_snoc (trades : list Trade) (t : Trade) :
  primary_lines (trades ++ [t]) = primary_step (primary_lines trades) t.
Proof. unfold primary_lines. by rewrite foldl_snoc. Qed.

Lemma primary_lines_fst (trades : list Trade) :
  (primary_lines trades).1 = primary_line_of <$> trades.
Proof.
  induction trades as [|t trades IH] using rev_ind; [done|].
  rewrite primary_lines_snoc, fmap_app. simpl. by rewrite IH.
Qed.

Lemma primary_lines_lookup (trades : list Trade) (t : Trade) :
  t ∈ trades →
  (primary_lines trades).2 !! obligation_id t
  = Some ("M_" +:+ obligation_id t, 1).
Proof.
  induction trades as [|x trades IH] using rev_ind.
  - by intros ?%elem_of_nil.
  - intros Ht. rewrite primary_lines_snoc. simpl.
    destruct (decide (obligation_id x = obligation_id t)) as [E|NE].
    + rewrite E. by rewrite lookup_insert_eq.
    + rewrite lookup_insert_ne by done.
      apply elem_of_app in Ht as [Ht|Ht]; [by apply IH|].
      apply list_elem_of_singleton in Ht. by subst.
Qed.

Lemma duplicate_line_Some (trades : list Trade) (idx : nat) :
  (idx < length trades)%nat →
  ∃ t, trades !! idx = Some t
       ∧ duplicate_line trades (primary_lines trades).2 idx
         = Some (primary_line_of t).
Proof.
  intros Hidx. destruct (lookup_lt_is_Some_2 trades idx Hidx) as [t Ht].
  exists t. split; [done|].
  unfold duplicate_line. rewrite Ht. simpl.
  rewrite primary_lines_lookup by (by eapply list_elem_of_lookup_2).
  done.
Qed.

Section DatasetFacts.
Context {G : Type} `{RandomSourceLaws G}.

Lemma draft_dataset_shape (n_trades n_unmatches n_duplicates : Z) (g : G) :
  ∃ d g',
    draft_dataset n_trades n_unmatches n_duplicates g = Some (d, g')
    ∧ d_trades d = (make_trades n_trades g).1
    ∧ d_primary d = primary_line_of <$> d_trades d
    ∧ length (d_duplicates d)
      = emitted_duplicates n_duplicates (length (d_primary d))
    ∧ length (d_unmatches d) = Z.to_nat n_unmatches.
Proof.
  unfold draft_dataset, ebind, lift.
  destruct (make_trades n_trades g) as [trades g1] eqn:Etr. simpl.
  pose proof (primary_lines_fst trades) as Hfst.
  destruct (primary_lines trades) as [lines ms] eqn:Epl. simpl in Hfst.
  assert (∃ idxs g2,
    (if 0 <? n_duplicates
     then lift_opt (sample (length trades)
                      (Z.min n_duplicates (Z.of_nat (length trades))))
     else eret []) g1 = Some (idxs, g2)
    ∧ length idxs = emitted_duplicates n_duplicates (length trades)
    ∧ Forall (λ i, (i < length trades)%nat) idxs) as (idxs & g2 & -> & Hlen & Hb).
  { unfold emitted_duplicates.
    destruct (Z.ltb_spec 0 n_duplicates) as [Hpos|Hneg].
    - unfold sample. rewrite bool_decide_eq_true_2 by lia.
      simpl. unfold lift.
      set (k := Z.to_nat (Z.min n_duplicates (Z.of_nat (length trades)))).
      assert (k <= length trades)%nat as Hk by lia.
      pose proof (sample_range_length (length trades) k g1 Hk) as Hl.
      pose proof (sample_range_bound (length trades) k g1) as Hbd.
      destruct (sample_range (length trades) k g1) as [idxs g2].
      exists idxs, g2. simpl in *. split_and!; [done|done|].
      apply Forall_forall. intros i Hi. by apply Hbd.
    - exists [], g1. by split_and!. }
  assert (mapM (duplicate_line trades ms) idxs
          = Some ((λ i, primary_line_of (nth i trades
                    {| obligation_id := ""; venue := ""; isin := "";
                       account := ""; settle_date := "";
                       intended_qty := 0 |})) <$> idxs)) as Hdup.
  { apply mapM_Some_2. apply Forall2_fmap_r, Forall_Forall2_diag.
    eapply Forall_impl; [exact Hb|]. intros i Hi. simpl.
    destruct (duplicate_line_Some trades i Hi) as (t & Ht & Hd).
    rewrite Epl in Hd. simpl in Hd. rewrite Hd. do 2 f_equal.
    symmetry. by apply nth_lookup_Some. }
  unfold of_option. rewrite Hdup. simpl.
  pose proof (for_range_length (G:=G) fake_line 0 (Z.to_nat n_unmatches) g2)
    as Hfk.
  destruct (for_range fake_line 0 (Z.to_nat n_unmatches) g2) as [fakes g3].
  eexists _, _. split; [reflexivity|]. simpl.
  split_and!; [done|done| |done].
  rewrite length_fmap, Hlen. subst lines. by rewrite length_fmap.
Qed.

Lemma generate_dataset_expected n_trades n_unmatches n_duplicates
    (g g' : G) out :
  generate_dataset n_trades n_unmatches n_duplicates g = Some (out, g') →
  out.2 = (n_trades, n_unmatches, n_duplicates).
Proof.
  unfold generate_dataset, ebind, lift, eret.
  destruct (draft_dataset _ _ _ g) as [[d g1]|]; [|done].
  destruct (shuffle _ g1) as [bl g2].
  destruct (shuffle _ g2) as [ml g3].
  by intros [= <- _].
Qed.

Lemma generate_dataset_total n_trades n_unmatches n_duplicates (g : G) :
  is_Some (generate_dataset n_trades n_unmatches n_duplicates g).
Proof.
  destruct (draft_dataset_shape n_trades n_unmatches n_duplicates g)
    as (d & g1 & Hd & _).
  unfold generate_dataset, ebind, lift, eret. rewrite Hd.
  destruct (shuffle _ g1) as [bl g2].
  destruct (shuffle _ g2) as [ml g3]. done.
Qed.
End DatasetFacts.

Section ExpectedTriple.
Context {G : Type} `{RandomSourceLaws G}.

(** C1 (the code departs from the claim): asked for 5 duplicates of 2
    trades, [generate_dataset] emits [min 5 2 = 2] duplicate lines, yet
    the expected triple it returns carries the requested 5. *)
Theorem expected_duplicates_not_capped (g : G) :
  ∃ d g1 out g2,
    draft_dataset 2 0 5 g = Some (d, g1)
    ∧ generate_dataset 2 0 5 g = Some (out, g2)
    ∧ length (d_primary d) = 2%nat
    ∧ length (d_duplicates d) = 2%nat
    ∧ out.2 = (2, 0, 5).
Proof.
  destruct (draft_dataset_shape 2 0 5 g)
    as (d & g1 & Hd & Htr & Hpr & Hdup & _).
  destruct (generate_dataset_total 2 0 5 g) as [[out g2] Hout].
  exists d, g1, out, g2.
  assert (length (d_primary d) = 2%nat) as Hlen.
  { rewrite Hpr, length_fmap, Htr, make_trades_length. done. }
  split_and!; [done|done|done| |by eapply generate_dataset_expected].
  rewrite Hdup, Hlen. reflexivity.
Qed.
End ExpectedTriple.

Lemma expected_duplicates_not_capped_witness :
  ∃ d g1 out g2,
    draft_dataset 2 0 5 (seeded (G:=Z) 42) = Some (d, g1)
    ∧ generate_dataset 2 0 5 (seeded (G:=Z) 42) = Some (out, g2)
    ∧ length (d_primary d) = 2%nat
    ∧ length (d_duplicates d) = 2%nat
    ∧ out.2 = (2, 0, 5).
Proof. exact (expected_duplicates_not_capped (G:=Z) (seeded 42)). Defined.

Section Determinism.
Context {G : Type} `{RandomSourceLaws G}.

Lemma seeded_run_total (a n_trades n_unmatches n_duplicates : Z) (g : G) :
  is_Some (seeded_run a n_trades n_unmatches n_duplicates g).
Proof.
  unfold seeded_run, ebind, lift, seed.
  apply generate_dataset_total.
Qed.

(** C2: two runs of the generator with the same seed and the same
    counts both return, and return the same bank lines and the same
    market lines, in the same (shuffled) order, whatever state the
    process-wide generator was in before each run. *)
Theorem seeded_run_deterministic
    (a n_trades n_unmatches n_duplicates : Z) (g1 g2 : G) :
  ∃ bank_lines market_lines expected,
    fst <$> seeded_run a n_trades n_unmatches n_duplicates g1
    = Some (bank_lines, market_lines, expected)
    ∧ fst <$> seeded_run a n_trades n_unmatches n_duplicates g2
      = Some (bank_lines, market_lines, expected).
Proof.
  destruct (seeded_run_total a n_trades n_unmatches n_duplicates g1)
    as [[[[bl ml] ex] g'] Hrun].
  exists bl, ml, ex.
  assert (seeded_run a n_trades n_unmatches n_duplicates g2
          = seeded_run a n_trades n_unmatches n_duplicates g1) as ->
    by reflexivity.
  by rewrite Hrun.
Qed.
End Determinism.

Lemma seeded_run_deterministic_witness :
  ∃ bank_lines market_lines expected,
    fst <$> seeded_run (G:=Z) 42 25 7 5 0
    = Some (bank_lines, market_lines, expected)
    ∧ fst <$> seeded_run (G:=Z) 42 25 7 5 99
      = Some (bank_lines, market_lines, expected).
Proof. exact (seeded_run_deterministic (G:=Z) 42 25 7 5 0 99). Defined.

(** ** The process orchestrator *)

Section Orchestrator.
Implicit Types (w : World) (s : OrchState) (expected : Triple).

(** Polling leaves the child process alone. *)
Lemma poll_keeps_child fuel w expected timeout_sec start s r s' :
  poll fuel w expected timeout_sec start s = Some (r, s') →
  actions s' = actions s ∧ child s' = child s.
Proof.
  revert s. induction fuel as [|fuel IH]; intros s; [done|].
  simpl. unfold look. simpl.
  destruct (Qlt_le_dec _ _), (status_at w (looks s)); simpl;
    try (intros [= <- <-]; done);
    try (intros Hp; apply IH in Hp; done).
  all: destruct (decide _);
    [intros [= <- <-]; done | intros Hp; apply IH in Hp; done].
Qed.

(** The [finally] block on a running child. *)
Lemma cleanup_running w s :
  child s = Running →
  actions (cleanup w s)
  = actions s ++ (if obeys_terminate w
                  then [Terminate; WaitGrace]
                  else [Terminate; WaitGrace; Kill])
  ∧ child (cleanup w s) = (if obeys_terminate w then Exited else Killed).
Proof.
  intros Hc. unfold cleanup, wait_grace, terminate. simpl. rewrite Hc.
  destruct (obeys_terminate w); simpl; by rewrite <- !app_assoc.
Qed.

Lemma poll_until_timeout w expected timeout_sec start m :
  ∀ k fuel s,
    ticks s = S k → looks s = k →
    (∀ j, (k <= j < k + m)%nat →
          (clock w (S j) - start < timeout_sec)%Q
          ∧ keeps_polling w expected j) →
    (timeout_sec <= clock w (S (k + m)) - start)%Q →
    status_at w (k + m) ≠ Unreadable →
    (m < fuel)%nat →
    ∃ s', poll fuel w expected timeout_sec start s
          = Some (Ok (counts_at_timeout (status_at w (k + m))), s')
          ∧ sleeps s' = (sleeps s + m)%nat
          ∧ looks s' = S (k + m).
Proof.
  induction m as [|m IH]; intros k fuel s Ht Hl Hbefore Hlate Hread Hfuel.
  - destruct fuel as [|fuel]; [lia|].
    rewrite Nat.add_0_r in *.
    simpl. rewrite Ht. unfold look. simpl. rewrite Hl.
    destruct (Qlt_le_dec _ _) as [Hlt|_].
    { exfalso. eapply Qlt_not_le; eauto. }
    destruct (status_at w k); simpl; [| |done];
      eexists; (split_and!; [reflexivity|simpl; lia|simpl; lia]).
  - destruct fuel as [|fuel]; [lia|].
    destruct (Hbefore k ltac:(lia)) as [Hlt Hkeep].
    simpl. rewrite Ht. unfold look. simpl. rewrite Hl.
    destruct (Qlt_le_dec _ _) as [_|Hle].
    2:{ exfalso. eapply Qlt_not_le; eauto. }
    unfold keeps_polling in Hkeep.
    replace (k + S m)%nat with (S k + m)%nat in * by lia.
    destruct (status_at w k) as [|text|] eqn:Eobs; simpl; [| |done].
    + edestruct (IH (S k) fuel) as (s' & Hp & Hs & Hk);
        [| |intros j Hj; apply Hbefore; lia|exact Hlate|exact Hread|lia|].
      3:{ eexists. split_and!; [exact Hp|simpl in Hs; lia|lia]. }
      all: simpl; lia.
    + rewrite decide_False by done.
      edestruct (IH (S k) fuel) as (s' & Hp & Hs & Hk);
        [| |intros j Hj; apply Hbefore; lia|exact Hlate|exact Hread|lia|].
      3:{ eexists. split_and!; [exact Hp|simpl in Hs; lia|lia]. }
      all: simpl; lia.
Qed.

(** C4: when the first look at the status file already shows the
    expected counts, the orchestrator returns that triple without a
    single sleep, for every timeout and whether or not the child obeys
    the request to terminate. *)
Theorem satisfied_at_first_poll_returns_at_once
    fuel w expected timeout_sec text :
  status_at w 0%nat = Content text →
  observed_counts text = expected →
  ∃ s, run_kotlin_runner_and_wait (S fuel) w expected timeout_sec
       = Some (Ok expected, s)
       ∧ sleeps s = 0%nat ∧ looks s = 1%nat.
Proof.
  intros Hobs Hcounts.
  unfold run_kotlin_runner_and_wait. simpl. unfold look. simpl.
  rewrite Hobs.
  destruct (Qlt_le_dec _ _); [rewrite decide_True by done|];
    rewrite Hcounts; eexists; split_and!; try reflexivity;
    unfold cleanup, wait_grace, terminate; simpl;
    destruct (obeys_terminate w); reflexivity.
Qed.

(** C5: when the deadline passes at the [n]-th check of the clock and
    no earlier look showed the expected counts, the orchestrator returns
    (it does not raise) the counts of what the status file holds at that
    moment, after [n] sleeps; given that the status file can be read. *)
Theorem timeout_returns_observed_counts
    (n fuel : nat) w expected timeout_sec :
  (∀ k, (k < n)%nat →
        (clock w (S k) - clock w 0%nat < timeout_sec)%Q
        ∧ keeps_polling w expected k) →
  (timeout_sec <= clock w (S n) - clock w 0%nat)%Q →
  status_at w n ≠ Unreadable →
  (n < fuel)%nat →
  ∃ s, run_kotlin_runner_and_wait fuel w expected timeout_sec
       = Some (Ok (counts_at_timeout (status_at w n)), s)
       ∧ sleeps s = n ∧ looks s = S n.
Proof.
  intros Hbefore Hlate Hread Hfuel.
  unfold run_kotlin_runner_and_wait. simpl.
  edestruct (poll_until_timeout w expected timeout_sec (clock w 0%nat) n
               0%nat fuel) as (s' & Hp & Hs & Hk);
    [| |intros j Hj; apply Hbefore; lia|exact Hlate|exact Hread|exact Hfuel|].
  3:{ rewrite Hp. eexists. split; [reflexivity|].
      unfold cleanup, wait_grace, terminate. simpl in *.
      destruct (child s'), (obeys_terminate w); simpl; done. }
  all: reflexivity.
Qed.

(** C6: on every path by which the orchestrator leaves (a return from
    inside the loop, a return after the timeout, an exception while
    polling) the child is first asked to terminate and waited for; when
    it has not exited within the grace period it is killed; in no case
    is it left running. *)
Theorem child_terminated_on_every_exit
    fuel w expected timeout_sec (r : Result Triple) s :
  run_kotlin_runner_and_wait fuel w expected timeout_sec = Some (r, s) →
  actions s = (if obeys_terminate w
               then [Terminate; WaitGrace]
               else [Terminate; WaitGrace; Kill])
  ∧ child s = (if obeys_terminate w then Exited else Killed)
  ∧ child s ≠ Running.
Proof.
  unfold run_kotlin_runner_and_wait. simpl.
  destruct (poll _ _ _ _ _ _) as [[r' s']|] eqn:Hp; [|done].
  intros [= <- <-].
  apply poll_keeps_child in Hp as [Hact Hch]. simpl in *.
  destruct (cleanup_running w s' Hch) as [Ha Hc].
  rewrite Ha, Hc, Hact. simpl.
  split_and!; [done|done|by destruct (obeys_terminate w)].
Qed.
End Orchestrator.

Lemma satisfied_at_first_poll_returns_at_once_witness :
  ∃ s, run_kotlin_runner_and_wait 1 world_done (1, 1, 0) 15
       = Some (Ok (1, 1, 0), s)
       ∧ sleeps s = 0%nat ∧ looks s = 1%nat.
Proof.
  apply (satisfied_at_first_poll_returns_at_once
           0 world_done (1, 1, 0) 15 status_done);
    vm_compute; reflexivity.
Defined.

Lemma timeout_returns_observed_counts_witness :
  ∃ s, run_kotlin_runner_and_wait 3 world_stuck (1, 1, 0) 0.5
       = Some (Ok (0, 1, 0), s)
       ∧ sleeps s = 2%nat ∧ looks s = 3%nat.
Proof.
  apply (timeout_returns_observed_counts 2 3 world_stuck (1, 1, 0) 0.5).
  - intros k Hk. destruct k as [|[|k]]; [| |lia].
    + split; [vm_compute; reflexivity|vm_compute; discriminate].
    + split; [vm_compute; reflexivity|vm_compute; discriminate].
  - vm_compute. discriminate.
  - vm_compute. discriminate.
  - lia.
Defined.

Lemma child_terminated_on_every_exit_witness :
  ∃ s, run_kotlin_runner_and_wait 1 world_unreadable (1, 1, 0) 15
       = Some (Exn, s)
       ∧ actions s = [Terminate; WaitGrace; Kill]
       ∧ child s = Killed
       ∧ child s ≠ Running.
Proof.
  eexists. split; [vm_compute; reflexivity|].
  apply (child_terminated_on_every_exit 1 world_unreadable (1, 1, 0) 15 Exn).
  vm_compute. reflexivity.
Defined.

(** ** The metrics collector *)

Section MetricsFacts.
Implicit Types (d : gmap string PyNum) (lines : list string).

Lemma scan_metrics_skip d before rest :
  no_marker before →
  scan_metrics d (before ++ rest) = scan_metrics d rest.
Proof.
  induction 1 as [|l before Hl _ IH]; [done|].
  simpl. by rewrite Hl.
Qed.

Lemma scan_metrics_no_marker d lines :
  no_marker lines → scan_metrics d lines = d.
Proof.
  intros Hn. rewrite <- (app_nil_r lines).
  by rewrite scan_metrics_skip.
Qed.

Lemma parse_example_line :
  parse_metrics_line zero_metrics example_metrics_line = example_metrics.
Proof. vm_compute. reflexivity. Qed.

(** C7: on an output whose first marker line is the line of the example,
    the collector returns memory 12.5, GC time 3.2, CPU time 100.0 (read
    from the key [duration_ms]) and 42 peak entities; on an output with no
    marker line it returns the record of zeros. *)
Theorem parse_kotlin_metrics_example_and_absent :
  (∀ stdout before after,
     PyStr.splitlines stdout = before ++ example_metrics_line :: after →
     no_marker before →
     _parse_kotlin_metrics stdout = example_metrics)
  ∧ (∀ stdout,
       no_marker (PyStr.splitlines stdout) →
       _parse_kotlin_metrics stdout = zero_metrics).
Proof.
  split.
  - intros stdout before after Hlines Hbefore.
    unfold _parse_kotlin_metrics.
    rewrite Hlines, scan_metrics_skip by done.
    simpl. apply parse_example_line.
  - intros stdout Hnone. unfold _parse_kotlin_metrics.
    by apply scan_metrics_no_marker.
Qed.

(** Storing a parsed value never removes a key. *)
Lemma store_parsed_keeps {A} (parse : string → option A) inj key value d k :
  is_Some (d !! k) → is_Some (store_parsed parse inj key value d !! k).
Proof.
  intros Hk. unfold store_parsed. destruct (parse value); [|done].
  destruct (decide (key = k)) as [->|NE].
  - rewrite lookup_insert_eq. by eexists.
  - by rewrite lookup_insert_ne.
Qed.

Lemma apply_pair_keeps d pair k :
  is_Some (d !! k) → is_Some (apply_pair d pair !! k).
Proof.
  intros Hk. unfold apply_pair.
  destruct (PyStr.split_once "=" pair) as [[key value]|]; [|done].
  repeat case_decide; try done; by apply store_parsed_keeps.
Qed.

Lemma parse_metrics_line_keeps d line k :
  is_Some (d !! k) → is_Some (parse_metrics_line d line !! k).
Proof.
  unfold parse_metrics_line.
  generalize (PyStr.split ", "
                (PyStr.strip (PyStr.replace metrics_marker "" line))).
  intros pairs. revert d.
  induction pairs as [|p pairs IH]; intros d Hk; [done|].
  simpl. apply IH. by apply apply_pair_keeps.
Qed.

Lemma scan_metrics_keeps d lines k :
  is_Some (d !! k) → is_Some (scan_metrics d lines !! k).
Proof.
  intros Hk. induction lines as [|l lines IH]; [done|].
  simpl. destruct (PyStr.startswith metrics_marker l); [|done].
  by apply parse_metrics_line_keeps.
Qed.

Lemma parse_kotlin_metrics_has_keys stdout k :
  k ∈ metric_keys → is_Some (_parse_kotlin_metrics stdout !! k).
Proof.
  intros Hk. apply scan_metrics_keeps.
  unfold metric_keys in Hk.
  repeat (apply elem_of_cons in Hk as [->|Hk]; [by vm_compute; eexists|]).
  by apply elem_of_nil in Hk.
Qed.
End MetricsFacts.

Lemma parse_kotlin_metrics_example_and_absent_witness :
  _parse_kotlin_metrics
    ("Starting engine" +:+ String "010"
       (example_metrics_line +:+ String "010" "done"))
  = example_metrics
  ∧ _parse_kotlin_metrics ("Starting engine" +:+ String "010" "done")
    = zero_metrics.
Proof.
  destruct parse_kotlin_metrics_example_and_absent as [Hex Habs].
  split.
  - apply (Hex _ ["Starting engine"] ["done"]).
    + vm_compute. reflexivity.
    + repeat constructor.
  - apply Habs. vm_compute. repeat constructor.
Defined.

Section MeasurementFacts.
Context {G : Type} `{RandomSource G}.

(** C10: when the engine's output has no marker line, the metric that
    [_run_single_measurement] builds has [cpu_time_ms] 0.0 and
    [peak_entities] 0, not the wall-clock duration and the obligation
    count; and whatever the output, the parsed dictionary holds all four
    keys, so the defaults given to [get] never show. *)
Theorem defaults_never_used_without_marker
    (cfg : BenchmarkConfig) (obs : RunObs) (stdout : string)
    (g g' : G) (m : PerformanceMetrics) :
  engine obs = Completed stdout →
  no_marker (PyStr.splitlines stdout) →
  _run_single_measurement cfg false obs g = Some (Some m, g') →
  cpu_time_ms m = PFloat 0
  ∧ peak_entities m = PInt 0
  ∧ (∀ out k d1 d2, k ∈ metric_keys →
       dict_get (_parse_kotlin_metrics out) k d1
       = dict_get (_parse_kotlin_metrics out) k d2).
Proof.
  intros Hen Hnone Hrun.
  split_and!.
  1,2: unfold _run_single_measurement, ebind, of_option, eret in Hrun;
    destruct (_generate_dataset cfg g) as [[ds g1]|]; [|done];
    unfold _run_kotlin_with_profiling in Hrun; rewrite Hen in Hrun;
    simpl in Hrun; injection Hrun as <- _;
    unfold measured, _parse_kotlin_metrics; simpl;
    rewrite (scan_metrics_no_marker _ _ Hnone); reflexivity.
  intros out k d1 d2 Hk. unfold dict_get.
  by destruct (parse_kotlin_metrics_has_keys out k Hk) as [v ->].
Qed.
End MeasurementFacts.

Lemma defaults_never_used_without_marker_witness :
  ∃ m g',
    _run_single_measurement micro_config false silent_run (seeded (G:=Z) 12345)
    = Some (Some m, g')
    ∧ cpu_time_ms m = PFloat 0
    ∧ peak_entities m = PInt 0.
Proof.
  eexists _, _. split; [vm_compute; reflexivity|].
  edestruct (defaults_never_used_without_marker (G:=Z)
               micro_config silent_run ("Engine started" +:+ String "010" "")
               (seeded 12345)) as (Hc & Hp & _);
    [reflexivity|vm_compute; repeat constructor|vm_compute; reflexivity|].
  split; [exact Hc|exact Hp].
Defined.

(** ** The additional events of the benchmark dataset *)

Lemma count_msg_nil m : count_msg m [] = 0.
Proof. reflexivity. Qed.

Lemma count_msg_cons m e es :
  count_msg m (e :: es)
  = (if decide (msg_id e = m) then 1 else 0) + count_msg m es.
Proof.
  unfold count_msg. rewrite filter_cons.
  destruct (decide (msg_id e = m)); simpl; lia.
Qed.

Lemma count_msg_app m es1 es2 :
  count_msg m (es1 ++ es2) = count_msg m es1 + count_msg m es2.
Proof.
  unfold count_msg. rewrite filter_app, length_app. lia.
Qed.

Lemma count_msg_snoc m es e :
  count_msg m (es ++ [e])
  = count_msg m es + (if decide (msg_id e = m) then 1 else 0).
Proof. rewrite count_msg_app, count_msg_cons, count_msg_nil. lia. Qed.

Lemma msg_of_inj t1 t2 :
  msg_of t1 = msg_of t2 → obligation_id t1 = obligation_id t2.
Proof. unfold msg_of. apply string_app_inv_head. Qed.

Lemma bench_primary_snoc trades t :
  bench_primary (trades ++ [t])
  = bench_primary_step (bench_primary trades) t.
Proof. unfold bench_primary. by rewrite foldl_snoc. Qed.

Lemma bench_primary_fst trades :
  (bench_primary trades).1 = primary_event_of <$> trades.
Proof.
  induction trades as [|t trades IH] using rev_ind; [done|].
  rewrite bench_primary_snoc, fmap_app. simpl. by rewrite IH.
Qed.

Lemma bench_primary_lookup trades t :
  t ∈ trades →
  (bench_primary trades).2 !! obligation_id t = Some (msg_of t, 1).
Proof.
  induction trades as [|x trades IH] using rev_ind.
  - by intros ?%elem_of_nil.
  - intros Ht. rewrite bench_primary_snoc. simpl.
    destruct (decide (obligation_id x = obligation_id t)) as [E|NE].
    + rewrite E, lookup_insert_eq. done.
    + rewrite lookup_insert_ne by done.
      apply elem_of_app in Ht as [Ht|Ht]; [by apply IH|].
      apply list_elem_of_singleton in Ht. by subst.
Qed.

Lemma count_msg_primary_absent trades m :
  (∀ t, t ∈ trades → msg_of t ≠ m) →
  count_msg m (primary_event_of <$> trades) = 0.
Proof.
  induction trades as [|x trades IH]; intros Hm; [done|].
  rewrite fmap_cons, count_msg_cons. simpl.
  rewrite decide_False by (apply Hm; left).
  rewrite IH; [done|]. intros t Ht. apply Hm. by right.
Qed.

Lemma count_msg_primary trades t :
  NoDup (obligation_id <$> trades) → t ∈ trades →
  count_msg (msg_of t) (primary_event_of <$> trades) = 1.
Proof.
  induction trades as [|x trades IH]; intros Hnd Ht.
  - by apply elem_of_nil in Ht.
  - rewrite fmap_cons in Hnd. apply NoDup_cons in Hnd as [Hx Hnd].
    rewrite fmap_cons, count_msg_cons. simpl.
    apply elem_of_cons in Ht as [->|Ht].
    + rewrite decide_True by done.
      rewrite count_msg_primary_absent; [done|].
      intros t' Ht' E. apply msg_of_inj in E.
      apply Hx. rewrite <- E. by apply list_elem_of_fmap_2.
    + rewrite decide_False.
      * rewrite IH by done. done.
      * intros E. apply msg_of_inj in E.
        apply Hx. rewrite E. by apply list_elem_of_fmap_2.
Qed.

Section AdditionalEvents.
Context {G : Type} `{RandomSource G}.
Implicit Types (trades : list Trade) (st : list MarketEvent * MsgSeq).

Lemma choice_nonempty_elem {A} (x : A) (l : list A) (g : G) :
  (choice_nonempty x l g).1 ∈ x :: l.
Proof.
  unfold choice_nonempty, rbind, rret.
  destruct (randbelow _ g) as [i g']. simpl.
  destruct (Z.to_nat i) as [|k]; [left|].
  destruct (decide (k < length l)%nat) as [Hk|Hk].
  - right. apply list_elem_of_In, nth_In. done.
  - rewrite nth_overflow by lia. left.
Qed.

Lemma additional_step_spec trades i st g :
  trades ≠ [] → tracks trades st →
  ∃ t g',
    t ∈ trades
    ∧ additional_step trades i st g
      = Some ((st.1 ++ [additional_event t (msg_of t)
                          (count_msg (msg_of t) st.1 + 1) i],
               <[obligation_id t :=
                   (msg_of t, count_msg (msg_of t) st.1 + 1)]> st.2), g').
Proof.
  intros Hne Htr. unfold additional_step, ebind, lift_opt, choice.
  destruct trades as [|x l]; [done|]. unfold lift.
  pose proof (choice_nonempty_elem x l g) as Hin.
  destruct (choice_nonempty x l g) as [t g1]. simpl in Hin.
  exists t, g1. split; [done|].
  unfold of_option. rewrite (Htr t Hin). reflexivity.
Qed.

Lemma msg_id_additional_event t m s i :
  msg_id (additional_event t m s i) = m.
Proof. unfold additional_event. by repeat case_match. Qed.

Lemma tracks_step trades st t i :
  tracks trades st → t ∈ trades →
  tracks trades
    (st.1 ++ [additional_event t (msg_of t)
                (count_msg (msg_of t) st.1 + 1) i],
     <[obligation_id t := (msg_of t, count_msg (msg_of t) st.1 + 1)]> st.2).
Proof.
  intros Htr Ht t' Ht'. simpl.
  rewrite count_msg_snoc, msg_id_additional_event.
  destruct (decide (obligation_id t = obligation_id t')) as [E|NE].
  - rewrite E, lookup_insert_eq.
    assert (msg_of t = msg_of t') as -> by (unfold msg_of; by rewrite E).
    by rewrite decide_True.
  - rewrite lookup_insert_ne by done.
    rewrite decide_False by (intros E; by apply msg_of_inj in E).
    rewrite Z.add_0_r. by apply Htr.
Qed.

Lemma additional_loop_spec trades n :
  ∀ start st g,
    trades ≠ [] → tracks trades st →
    ∃ extra ms g',
      additional_loop trades start n st g = Some ((st.1 ++ extra, ms), g')
      ∧ length extra = n
      ∧ ∀ j e, extra !! j = Some e →
               extends trades (st.1 ++ take j extra) (start + j) e.
Proof.
  induction n as [|n IH]; intros start st g Hne Htr.
  - exists [], st.2, g. simpl. unfold eret. rewrite app_nil_r.
    split_and!; [by destruct st|done|]. intros j e Hj. by destruct j.
  - simpl. unfold ebind.
    destruct (additional_step_spec trades start st g Hne Htr)
      as (t & g1 & Ht & ->).
    pose proof (tracks_step trades st t start Htr Ht) as Htr'.
    destruct (IH (S start) _ g1 Hne Htr') as (extra & ms & g2 & -> & Hlen & Hex).
    simpl. eexists (_ :: extra), ms, g2.
    rewrite <- app_assoc. simpl.
    split_and!; [done|simpl; lia|].
    intros [|j] e Hj; simpl in Hj.
    + injection Hj as <-. exists t. simpl.
      rewrite app_nil_r, Nat.add_0_r. done.
    + specialize (Hex j e Hj). simpl in Hex.
      rewrite <- app_assoc in Hex. simpl in Hex.
      replace (start + S j)%nat with (S start + j)%nat by lia. done.
Qed.
End AdditionalEvents.

Lemma seq_no_additional_event t m s i :
  seq_no (additional_event t m s i) = s.
Proof. unfold additional_event. by repeat case_match. Qed.

Lemma code_additional_event t m s i :
  code (additional_event t m s i) = cycle_code i.
Proof. unfold additional_event, cycle_code. by repeat case_match. Qed.

Section BenchEvents.
Context {G : Type} `{RandomSource G}.

Lemma bench_primary_tracks (n : Z) (g : G) :
  tracks (make_trades n g).1 (bench_primary (make_trades n g).1).
Proof.
  intros t Ht.
  rewrite bench_primary_lookup, bench_primary_fst by done.
  rewrite count_msg_primary; [done| |done].
  apply make_trades_ids_NoDup.
Qed.

(** C8: with at least one obligation, the benchmark generator writes,
    after the primary events, [num_status_events - num_obligations]
    additional events; the one at index [i] carries the message id of one
    of the trades and the sequence number that follows the events already
    written under that message id, and its status is PARTIAL_SETTLED,
    SETTLED or ACK as [i mod 3] is 0, 1 or 2. *)
Theorem additional_events_cycle_and_extend
    (cfg : BenchmarkConfig) (g : G) :
  0 < num_obligations cfg →
  ∃ trades extra g',
    bench_events cfg g
    = Some ((trades, (primary_event_of <$> trades) ++ extra), g')
    ∧ Z.of_nat (length trades) = num_obligations cfg
    ∧ length extra
      = Z.to_nat (num_status_events cfg - num_obligations cfg)
    ∧ ∀ i e, extra !! i = Some e →
        (∃ t, t ∈ trades
              ∧ msg_id e = msg_of t
              ∧ seq_no e
                = count_msg (msg_of t)
                    ((primary_event_of <$> trades) ++ take i extra) + 1)
        ∧ code e = (if Z.of_nat i mod 3 =? 0 then PARTIAL_SETTLED
                    else if Z.of_nat i mod 3 =? 1 then SETTLED
                    else ACK).
Proof.
  intros Hpos. unfold bench_events, ebind, lift.
  pose proof (make_trades_length (num_obligations cfg) g) as Hlen.
  pose proof (bench_primary_tracks (num_obligations cfg) g) as Htr.
  destruct (make_trades (num_obligations cfg) g) as [trades g1].
  simpl in Hlen, Htr.
  assert (trades ≠ []) as Hne.
  { intros ->. simpl in Hlen. lia. }
  destruct (additional_loop_spec trades
              (Z.to_nat (num_status_events cfg - Z.of_nat (length trades)))
              0 (bench_primary trades) g1 Hne Htr)
    as (extra & ms & g2 & -> & Hex_len & Hex).
  rewrite bench_primary_fst in *. simpl.
  exists trades, extra, g2.
  split_and!; [done|lia|rewrite Hex_len; f_equal; lia|].
  intros i e Hi. destruct (Hex i e Hi) as (t & Ht & ->). split.
  - exists t.
    by rewrite msg_id_additional_event, seq_no_additional_event.
  - apply code_additional_event.
Qed.
End BenchEvents.

Lemma additional_events_cycle_and_extend_witness :
  0 < num_obligations micro_config
  ∧ ∃ trades extra g',
      bench_events micro_config (seeded (G:=Z) 12345)
      = Some ((trades, (primary_event_of <$> trades) ++ extra), g')
      ∧ Z.of_nat (length trades) = 10
      ∧ length extra = 10%nat.
Proof.
  assert (0 < num_obligations micro_config) as Hpos by (simpl; lia).
  split; [exact Hpos|].
  destruct (additional_events_cycle_and_extend (G:=Z) micro_config
              (seeded 12345) Hpos)
    as (trades & extra & g' & Hev & Hlen & Hex & _).
  exists trades, extra, g'. split_and!; [exact Hev|exact Hlen|exact Hex].
Defined.

(** ** The statistics aggregator *)

Lemma mean_is_arithmetic_mean (xs : list Q) (m : Q) :
  mean xs = Some m →
  (m * inject_Z (Z.of_nat (length xs)) == Qsum xs)%Q.
Proof.
  destruct xs as [|x xs]; [done|]. unfold mean. intros Hm.
  assert (m = Qsum (x :: xs) / inject_Z (Z.of_nat (length (x :: xs))))%Q
    as -> by congruence.
  rewrite Qmult_comm. apply Qmult_div_r.
  unfold Qeq. simpl. lia.
Qed.

Lemma mean_unfold (xs : list Q) (m : Q) :
  mean xs = Some m →
  m = (Qsum xs / inject_Z (Z.of_nat (length xs)))%Q.
Proof. destruct xs as [|x xs]; [done|]. unfold mean. congruence. Qed.

Lemma mean_is_Some (xs : list Q) : xs ≠ [] → is_Some (mean xs).
Proof. destruct xs; [done|]. by eexists. Qed.

Lemma Qsum_squares_nonneg (m : Q) (xs : list Q) :
  (0 <= Qsum ((λ x, (x - m) * (x - m)) <$> xs))%Q.
Proof.
  induction xs as [|x xs IH]; [done|].
  rewrite fmap_cons. simpl.
  replace 0%Q with (0 + 0)%Q by reflexivity.
  apply Qplus_le_compat; [|exact IH].
  generalize (x - m)%Q. intros [a b]. unfold Qle. simpl. nia.
Qed.

Lemma variance_unfold (xs : list Q) :
  (2 <= length xs)%nat →
  variance xs
  = Some (Qsum ((λ x, (x - Qsum xs / inject_Z (Z.of_nat (length xs)))
                      * (x - Qsum xs / inject_Z (Z.of_nat (length xs))))%Q
                  <$> xs)
          / inject_Z (Z.of_nat (length xs) - 1))%Q.
Proof.
  destruct xs as [|x [|y xs]]; simpl length; [lia|lia|]. reflexivity.
Qed.

Lemma variance_is_Some (xs : list Q) (v : Q) :
  variance xs = Some v → (2 <= length xs)%nat.
Proof. destruct xs as [|x [|y xs]]; [done|done|]. simpl. lia. Qed.

Lemma variance_nonneg (xs : list Q) (v : Q) :
  variance xs = Some v → (0 <= v)%Q.
Proof.
  intros Hv. pose proof (variance_is_Some xs v Hv) as Hlen.
  rewrite (variance_unfold xs Hlen) in Hv.
  assert (v = Qsum ((λ x, (x - Qsum xs / inject_Z (Z.of_nat (length xs)))
                      * (x - Qsum xs / inject_Z (Z.of_nat (length xs))))%Q
                  <$> xs)
          / inject_Z (Z.of_nat (length xs) - 1))%Q as -> by congruence.
  apply Qle_shift_div_l.
  - unfold Qlt. simpl. lia.
  - rewrite Qmult_0_l. apply Qsum_squares_nonneg.
Qed.

Lemma stdev_spec (xs : list Q) :
  (2 <= length xs)%nat →
  ∃ v sd, variance xs = Some v ∧ stdev xs = Some sd
          ∧ (0 <= sd)%R ∧ (sd * sd = Q2R v)%R.
Proof.
  intros Hlen. unfold stdev.
  destruct (variance xs) as [v|] eqn:Ev.
  - exists v, (sqrt (Q2R v)). split_and!; [done|done|apply sqrt_pos|].
    apply sqrt_sqrt. replace 0%R with (Q2R 0) by (unfold Q2R; simpl; lra).
    apply Qle_Rle. by eapply variance_nonneg.
  - destruct xs as [|x [|y xs]]; simpl in *; [lia|lia|done].
Qed.

Section Aggregator.
Context {G : Type} `{RandomSource G}.

Lemma measurement_loop_spec cfg world n :
  ∀ run acc (g g' : G) res,
    measurement_loop cfg world run n acc g = Some (res, g') →
    ∃ new, res = acc ++ new ∧ length new = n
           ∧ ∀ i, (i < n)%nat →
                  ∃ stdout,
                    engine (world (run + i)%nat) = Completed stdout
                    ∧ new !! i
                      = Some (measured cfg (world (run + i)%nat)
                                (_parse_kotlin_metrics stdout)).
Proof.
  induction n as [|n IH]; intros run acc g g' res.
  - simpl. intros [= <- <-]. exists []. rewrite app_nil_r.
    split_and!; [done|done|]. intros i Hi. lia.
  - simpl. unfold ebind at 1.
    unfold _run_single_measurement, ebind, of_option, eret.
    destruct (_generate_dataset cfg g) as [[ds g1]|]; [|done].
    unfold _run_kotlin_with_profiling.
    destruct (engine (world run)) as [stdout| |] eqn:Een; simpl; [|done|done].
    intros Hloop. apply IH in Hloop as (new & -> & Hlen & Hnew).
    eexists (_ :: new). rewrite <- app_assoc. simpl.
    split_and!; [done|lia|].
    intros [|i] Hi.
    + exists stdout. rewrite Nat.add_0_r. done.
    + destruct (Hnew i ltac:(lia)) as (out & Hout & Hlk).
      exists out. replace (run + S i)%nat with (S run + i)%nat by lia. done.
Qed.

(** C9 (amended): a benchmark run that returns keeps the metric of every
    measurement iteration, in order; the aggregate's duration, throughput,
    memory, GC time and CPU time are the arithmetic means of the recorded
    values; its peak entity count is the arithmetic mean truncated toward
    zero; and with two or more iterations the standard deviation of the
    throughput is the non-negative root of the sample variance. *)
Theorem run_benchmark_retains_and_averages
    (cfg : BenchmarkConfig) (world : nat → RunObs) (now : string)
    (g g' : G) (r : BenchmarkResult) :
  run_benchmark cfg world now g = Some (r, g') →
  let ms := metrics r in
  let mm := mean_metrics r in
  let n := inject_Z (Z.of_nat (length ms)) in
  let w := Z.to_nat (warmup_iterations cfg) in
  length ms = Z.to_nat (measurement_iterations cfg)
  ∧ (∀ i, (i < length ms)%nat →
          ∃ stdout,
            engine (world (w + i)%nat) = Completed stdout
            ∧ ms !! i = Some (measured cfg (world (w + i)%nat)
                                (_parse_kotlin_metrics stdout)))
  ∧ (duration_ms mm * n == Qsum (duration_ms <$> ms))%Q
  ∧ (throughput_ops_per_sec mm * n
     == Qsum (throughput_ops_per_sec <$> ms))%Q
  ∧ (num_value (memory_used_mb mm) * n
     == Qsum ((λ x, num_value (memory_used_mb x)) <$> ms))%Q
  ∧ (num_value (gc_time_ms mm) * n
     == Qsum ((λ x, num_value (gc_time_ms x)) <$> ms))%Q
  ∧ (num_value (cpu_time_ms mm) * n
     == Qsum ((λ x, num_value (cpu_time_ms x)) <$> ms))%Q
  ∧ peak_entities mm
    = PInt (py_trunc (Qsum ((λ x, num_value (peak_entities x)) <$> ms) / n))
  ∧ ((2 <= length ms)%nat →
     ∃ v sd, variance (throughput_ops_per_sec <$> ms) = Some v
             ∧ throughput_stdev r = Some sd
             ∧ (0 <= sd)%R ∧ (sd * sd = Q2R v)%R).
Proof.
  unfold run_benchmark, ebind, of_option, eret.
  destruct (warmup_loop _ _ _ _ g) as [[u g1]|]; [|done].
  destruct (measurement_loop _ _ _ _ _ g1) as [[ms g2]|] eqn:Hloop; [|done].
  destruct (_calculate_mean_metrics cfg ms) as [mm|] eqn:Hmean; [|done].
  simpl. intros [= <- <-]. simpl.
  apply measurement_loop_spec in Hloop as (new & Hms & Hlen & Hnew).
  simpl in Hms. subst new.
  unfold _calculate_mean_metrics in Hmean.
  destruct (mean (duration_ms <$> ms)) as [d|] eqn:Ed; [|done].
  destruct (mean (throughput_ops_per_sec <$> ms)) as [t|] eqn:Et; [|done].
  destruct (mean ((λ x, num_value (memory_used_mb x)) <$> ms))
    as [m|] eqn:Em; [|done].
  destruct (mean ((λ x, num_value (gc_time_ms x)) <$> ms))
    as [gc|] eqn:Egc; [|done].
  destruct (mean ((λ x, num_value (cpu_time_ms x)) <$> ms))
    as [c|] eqn:Ec; [|done].
  destruct (mean ((λ x, num_value (peak_entities x)) <$> ms))
    as [p|] eqn:Ep; [|done].
  simpl in Hmean. injection Hmean as <-. simpl.
  apply mean_is_arithmetic_mean in Ed, Et, Em, Egc, Ec.
  rewrite length_fmap in Ed, Et, Em, Egc, Ec.
  split_and!; try done.
  - intros i Hi. apply Hnew. lia.
  - rewrite (mean_unfold _ _ Ep), length_fmap. done.
  - intros Hlen2. unfold throughput_stdev. simpl.
    rewrite bool_decide_eq_true_2 by lia.
    apply stdev_spec. by rewrite length_fmap.
Qed.
End Aggregator.

Lemma run_benchmark_retains_and_averages_witness :
  ∃ r g',
    run_benchmark two_runs_config two_runs_world fixed_instant
      (seeded (G:=Z) 12345) = Some (r, g')
    ∧ length (metrics r) = 2%nat
    ∧ peak_entities (mean_metrics r)
      = PInt (py_trunc
                (Qsum ((λ x, num_value (peak_entities x)) <$> metrics r)
                 / inject_Z (Z.of_nat (length (metrics r))))).
Proof.
  destruct (run_benchmark two_runs_config two_runs_world fixed_instant
              (seeded (G:=Z) 12345)) as [[r g']|] eqn:Hrun.
  - exists r, g'. split; [reflexivity|].
    pose proof (run_benchmark_retains_and_averages (G:=Z) _ _ _ _ _ _ Hrun)
      as (Hlen & _ & _ & _ & _ & _ & _ & Hpeak & _).
    split; [exact Hlen|exact Hpeak].
  - exfalso. vm_compute in Hrun. discriminate.
Defined.

(** C9 as the claim states it fails for the peak entity count: two
    iterations that report 1 and 2 peak entities aggregate to 1, which is
    not their arithmetic mean. *)
Lemma peak_entities_mean_not_arithmetic :
  ∃ r g',
    run_benchmark two_runs_config two_runs_world fixed_instant
      (seeded (G:=Z) 12345) = Some (r, g')
    ∧ peak_entities <$> metrics r = [PInt 1; PInt 2]
    ∧ peak_entities (mean_metrics r) = PInt 1
    ∧ ¬ (num_value (peak_entities (mean_metrics r))
         * inject_Z (Z.of_nat (length (metrics r)))
         == Qsum ((λ x, num_value (peak_entities x)) <$> metrics r))%Q.
Proof.
  eexists _, _. split; [vm_compute; reflexivity|].
  split_and!; [vm_compute; reflexivity|vm_compute; reflexivity|].
  vm_compute. discriminate.
Qed.

(** * Further properties of the generator *)

Lemma omap_lookup_seq {A} (pre l : list A) :
  omap (λ i, (pre ++ l) !! i) (seq (length pre) (length l)) = l.
Proof.
  revert pre. induction l as [|x l IH]; intros pre; [done|].
  simpl. rewrite list_lookup_middle by done. f_equal.
  specialize (IH (pre ++ [x])).
  rewrite <- app_assoc, length_app in IH. simpl in IH.
  by rewrite Nat.add_1_r in IH.
Qed.

Section ShuffleFacts.
Context {G : Type} `{RandomSourceLaws G}.

(** Shuffling rearranges: no element is lost, added or repeated. *)
Lemma shuffle_Permutation {A} (l : list A) (g : G) : (shuffle l g).1 ≡ₚ l.
Proof.
  unfold shuffle, rbind, rret.
  pose proof (shuffle_order_perm (length l) g) as Hp.
  destruct (shuffle_order (length l) g) as [p g']. simpl in *.
  rewrite Hp. pose proof (omap_lookup_seq [] l) as Ho. simpl in Ho.
  by rewrite Ho.
Qed.

(** X2: every line the duplicate loop appends is a copy of a primary
    line, and the copied positions are pairwise distinct, so no primary
    line is duplicated twice. *)
Theorem draft_dataset_duplicates n_trades n_unmatches n_duplicates
    (g g' : G) (d : Draft) :
  draft_dataset n_trades n_unmatches n_duplicates g = Some (d, g') →
  ∃ idxs, NoDup idxs
          ∧ length idxs
            = emitted_duplicates n_duplicates (length (d_primary d))
          ∧ Forall2 (λ i line, d_primary d !! i = Some line)
              idxs (d_duplicates d).
Proof.
  unfold draft_dataset, ebind, lift.
  destruct (make_trades n_trades g) as [trades g1] eqn:Etr. simpl.
  pose proof (primary_lines_fst trades) as Hfst.
  destruct (primary_lines trades) as [lines ms] eqn:Epl. simpl in Hfst.
  destruct ((if 0 <? n_duplicates
             then lift_opt (sample (length trades)
                    (Z.min n_duplicates (Z.of_nat (length trades))))
             else eret []) g1) as [[idxs g2]|] eqn:Es; [|done].
  unfold of_option.
  destruct (mapM (duplicate_line trades ms) idxs) as [dups|] eqn:Hm; [|done].
  simpl. unfold eret.
  destruct (for_range fake_line 0 (Z.to_nat n_unmatches) g2) as [fakes g3].
  intros [= <- <-]. simpl. exists idxs.
  assert (NoDup idxs
          ∧ length idxs = emitted_duplicates n_duplicates (length trades)
          ∧ Forall (λ i, (i < length trades)%nat) idxs)
    as (Hnd & Hlen & Hb).
  { unfold emitted_duplicates in *.
    destruct (Z.ltb_spec 0 n_duplicates) as [Hpos|Hneg].
    - unfold sample in Es. rewrite bool_decide_eq_true_2 in Es by lia.
      simpl in Es. unfold lift in Es.
      set (k := Z.to_nat (Z.min n_duplicates (Z.of_nat (length trades)))) in *.
      assert (k <= length trades)%nat as Hk by lia.
      pose proof (sample_range_length (length trades) k g1 Hk) as Hl.
      pose proof (sample_range_bound (length trades) k g1) as Hbd.
      pose proof (sample_range_NoDup (length trades) k g1 Hk) as Hn.
      destruct (sample_range (length trades) k g1) as [idxs' g2'].
      injection Es as <- <-. simpl in *. split_and!; [done|done|].
      apply Forall_forall. intros i Hi. by apply Hbd.
    - injection Es as <- <-. split_and!; [constructor|done|constructor]. }
  split_and!; [done|subst lines; by rewrite length_fmap|].
  apply mapM_Some_1 in Hm.
  eapply Forall2_impl; [exact Hm|].
  simpl. intros i line Hd.
  unfold duplicate_line in Hd.
  destruct (trades !! i) as [t|] eqn:Ht; [|done]. simpl in Hd.
  assert (t ∈ trades) as Hin by (by eapply list_elem_of_lookup_2).
  pose proof (primary_lines_lookup trades t Hin) as Hlk.
  rewrite Epl in Hlk. simpl in Hlk. rewrite Hlk in Hd. simpl in Hd.
  injection Hd as <-. subst lines.
  rewrite list_lookup_fmap, Ht. done.
Qed.
End ShuffleFacts.

Lemma draft_dataset_duplicates_witness :
  ∃ d g' idxs,
    draft_dataset 3 1 2 (seeded (G:=Z) 42) = Some (d, g')
    ∧ NoDup idxs
    ∧ length idxs = 2%nat
    ∧ Forall2 (λ i line, d_primary d !! i = Some line) idxs (d_duplicates d).
Proof.
  destruct (draft_dataset 3 1 2 (seeded (G:=Z) 42)) as [[d g']|] eqn:Hd.
  - destruct (draft_dataset_duplicates (G:=Z) 3 1 2 _ _ _ Hd)
      as (idxs & Hnd & Hlen & Hall).
    exists d, g', idxs. split_and!; [reflexivity|exact Hnd| |exact Hall].
    rewrite Hlen. vm_compute in Hd. injection Hd as <- _. reflexivity.
  - exfalso. vm_compute in Hd. discriminate.
Defined.

Section DatasetLines.
Context {G : Type} `{RandomSourceLaws G}.

(** X1: for all integer arguments [generate_dataset] returns; the bank
    lines are a rearrangement of one line per trade, the market lines a
    rearrangement of the primary, duplicate and unmatch lines, and there
    are [n_trades] bank lines and [n_trades + k + n_unmatches] market
    lines, [k] being the capped number of duplicates (negative counts
    count as zero). *)
Theorem generate_dataset_returns_all_lines
    (n_trades n_unmatches n_duplicates : Z) (g : G) :
  ∃ d g1 bank_lines market_lines g2,
    draft_dataset n_trades n_unmatches n_duplicates g = Some (d, g1)
    ∧ generate_dataset n_trades n_unmatches n_duplicates g
      = Some ((bank_lines, market_lines,
               (n_trades, n_unmatches, n_duplicates)), g2)
    ∧ bank_lines ≡ₚ as_bank_line <$> d_trades d
    ∧ market_lines ≡ₚ d_primary d ++ d_duplicates d ++ d_unmatches d
    ∧ length bank_lines = Z.to_nat n_trades
    ∧ length market_lines
      = (Z.to_nat n_trades
         + emitted_duplicates n_duplicates (Z.to_nat n_trades)
         + Z.to_nat n_unmatches)%nat.
Proof.
  destruct (draft_dataset_shape n_trades n_unmatches n_duplicates g)
    as (d & g1 & Hd & Htr & Hpr & Hdup & Hun).
  unfold generate_dataset, ebind, lift, eret. rewrite Hd.
  pose proof (shuffle_Permutation (as_bank_line <$> d_trades d) g1) as Hb.
  destruct (shuffle (as_bank_line <$> d_trades d) g1) as [bl g2].
  pose proof (shuffle_Permutation
                (d_primary d ++ d_duplicates d ++ d_unmatches d) g2) as Hm.
  destruct (shuffle _ g2) as [ml g3]. simpl in Hb, Hm.
  exists d, g1, bl, ml, g3.
  assert (length (d_trades d) = Z.to_nat n_trades) as Hlen
    by (rewrite Htr; apply make_trades_length).
  split_and!; [done|done|done|done| |].
  - by rewrite Hb, length_fmap.
  - rewrite Hm, !length_app, Hdup, Hun, Hpr, length_fmap, Hlen. lia.
Qed.

Lemma for_range_Forall {A} (P : A → Prop) (body : nat → Rand G A)
    (start n : nat) (g : G) :
  (∀ i g', P (body i g').1) → Forall P (for_range body start n g).1.
Proof.
  intros HP. revert start g. induction n as [|n IH]; intros start g.
  - constructor.
  - rewrite for_range_S.
    pose proof (HP start g) as Hx.
    destruct (body start g) as [x g1].
    specialize (IH (S start) g1).
    destruct (for_range body (S start) n g1) as [xs g2].
    simpl in *. by constructor.
Qed.

Lemma make_trade_account (i : nat) (g : G) :
  ∃ a, 100 <= a <= 999
       ∧ account (make_trade i g).1 = "ACC" +:+ PyStr.str_of_Z a.
Proof.
  unfold make_trade, rbind, rret.
  destruct (choice_nonempty "LSE" _ g) as [v g1].
  destruct (randint 0 9999999999 g1) as [isn g2].
  unfold randint at 1. unfold rbind, rret.
  pose proof (randbelow_range (999 - 100 + 1) g2 ltac:(lia)) as Hr.
  destruct (randbelow (999 - 100 + 1) g2) as [r g3]. simpl in Hr.
  destruct (rand_settle_date g3) as [sd g4].
  destruct (choice_nonempty 100 _ g4) as [q g5]. simpl.
  exists (100 + r). split; [lia|done].
Qed.

Lemma fake_trade_fields (i : nat) (g : G) :
  obligation_id (fake_trade i g).1
  = "FAKE" +:+ PyStr.str_of_Z (Z.of_nat i + 1)
  ∧ account (fake_trade i g).1
    = "ACC" +:+ PyStr.str_of_Z (1000 + Z.of_nat i).
Proof.
  unfold fake_trade, rbind, rret.
  destruct (rand_isin g) as [isn g1].
  destruct (rand_settle_date g1) as [sd g2].
  destruct (choice_nonempty 100 _ g2) as [q g3]. done.
Qed.

Lemma fake_line_of_trade (i : nat) (g : G) :
  (fake_line i g).1
  = as_market_line (fake_trade i g).1
      ("M_FAKE" +:+ PyStr.str_of_Z (Z.of_nat i + 1)) 1.
Proof.
  unfold fake_line, fake_trade, rbind, rret.
  destruct (rand_isin g) as [isn g1].
  destruct (rand_settle_date g1) as [sd g2].
  destruct (choice_nonempty 100 _ g2) as [q g3]. done.
Qed.
End DatasetLines.

Lemma str_of_N_inj (a b : N) : PyStr.str_of_N a = PyStr.str_of_N b → a = b.
Proof.
  intros E. pose proof (N_of_digits_str_of_N a) as Ha.
  rewrite E, N_of_digits_str_of_N in Ha. congruence.
Qed.

Lemma str_of_Z_inj_nonneg (a b : Z) :
  0 <= a → 0 <= b → PyStr.str_of_Z a = PyStr.str_of_Z b → a = b.
Proof.
  intros Ha Hb. unfold PyStr.str_of_Z.
  destruct (Z.ltb_spec a 0), (Z.ltb_spec b 0); try lia.
  intros E%str_of_N_inj. lia.
Qed.

Section UnmatchKeys.
Context {G : Type} `{RandomSourceLaws G}.

(** X3: the trade behind any unmatch line differs from every generated
    obligation in its identifier and in its account (accounts of
    obligations are ACC100..ACC999, those of unmatch lines ACC1000 and up),
    so its key is absent from the bank file. *)
Theorem unmatch_keys_absent_from_bank
    (n_trades : Z) (g g' : G) (i : nat) (t : Trade) :
  t ∈ (make_trades n_trades g).1 →
  (fake_line i g').1
  = as_market_line (fake_trade i g').1
      ("M_FAKE" +:+ PyStr.str_of_Z (Z.of_nat i + 1)) 1
  ∧ obligation_id (fake_trade i g').1 ≠ obligation_id t
  ∧ account (fake_trade i g').1 ≠ account t.
Proof.
  intros Ht.
  destruct (fake_trade_fields i g') as [Hid Hacc].
  split_and!; [apply fake_line_of_trade| |].
  - assert (obligation_id t ∈ obligation_id <$> (make_trades n_trades g).1)
      as Hin by (by apply list_elem_of_fmap_2).
    rewrite make_trades_ids in Hin.
    apply list_elem_of_fmap in Hin as (j & -> & _).
    rewrite Hid. unfold obligation_id_at. simpl. discriminate.
  - assert (Forall (λ t, ∃ a, 100 <= a <= 999
                          ∧ account t = "ACC" +:+ PyStr.str_of_Z a)
              (make_trades n_trades g).1) as Hall.
    { apply for_range_Forall. apply make_trade_account. }
    rewrite Forall_forall in Hall.
    destruct (Hall t Ht) as (a & Ha & ->). rewrite Hacc.
    intros E. apply string_app_inv_head in E.
    apply str_of_Z_inj_nonneg in E; lia.
Qed.
End UnmatchKeys.

Lemma generate_dataset_returns_all_lines_witness :
  ∃ d g1 bank_lines market_lines g2,
    draft_dataset 3 1 5 (seeded (G:=Z) 42) = Some (d, g1)
    ∧ generate_dataset 3 1 5 (seeded (G:=Z) 42)
      = Some ((bank_lines, market_lines, (3, 1, 5)), g2)
    ∧ bank_lines ≡ₚ as_bank_line <$> d_trades d
    ∧ market_lines ≡ₚ d_primary d ++ d_duplicates d ++ d_unmatches d
    ∧ length bank_lines = 3%nat
    ∧ length market_lines = 7%nat.
Proof. exact (generate_dataset_returns_all_lines (G:=Z) 3 1 5 (seeded 42)). Defined.

Lemma unmatch_keys_absent_from_bank_witness :
  sample_trade ∈ (make_trades 2 (seeded (G:=Z) 42)).1
  ∧ obligation_id (fake_trade 0 (seeded (G:=Z) 7)).1
    ≠ obligation_id sample_trade
  ∧ account (fake_trade 0 (seeded (G:=Z) 7)).1 ≠ account sample_trade.
Proof.
  assert (sample_trade ∈ (make_trades 2 (seeded (G:=Z) 42)).1) as Hin.
  { vm_compute. left. }
  split; [exact Hin|].
  destruct (unmatch_keys_absent_from_bank (G:=Z) 2 (seeded 42) (seeded 7)
              0 sample_trade Hin) as (_ & Hid & Hacc).
  split; [exact Hid|exact Hacc].
Defined.

(** * The channel files *)

Lemma string_app_assoc (a b c : string) : (a +:+ b) +:+ c = a +:+ (b +:+ c).
Proof.
  induction a as [|x a IH]; [reflexivity|].
  change (String x ((a +:+ b) +:+ c) = String x (a +:+ (b +:+ c))).
  by f_equal.
Qed.

Lemma string_app_empty_r (a : string) : a +:+ "" = a.
Proof.
  induction a as [|x a IH]; [reflexivity|].
  change (String x (a +:+ "") = String x a). by f_equal.
Qed.

Lemma rev_app_rev_app (l a b : string) :
  String.rev_app (String.rev_app l a) b = String.rev_app a (l +:+ b).
Proof.
  revert a b. induction l as [|c l IH]; intros a b; [done|].
  simpl. by rewrite IH.
Qed.

Lemma string_rev_rev_app (l : string) :
  String.rev (String.rev_app l "") = l.
Proof.
  unfold String.rev. rewrite rev_app_rev_app. simpl.
  apply string_app_empty_r.
Qed.

Lemma splitlines_go_line (cur l rest : string) :
  no_linebreak l = true →
  PyStr.splitlines_go cur (l +:+ String "010" rest)
  = String.rev (String.rev_app l cur) :: PyStr.splitlines_go "" rest.
Proof.
  revert cur. induction l as [|c l IH]; intros cur Hl.
  - simpl. destruct rest as [|c' rest']; [done|].
    change (PyStr.is_linebreak "010") with true. cbv iota.
    replace (bool_decide ("010"%char = "013"%char)) with false by done.
    done.
  - simpl in Hl. apply andb_true_iff in Hl as [Hc Hl].
    apply negb_true_iff in Hc. simpl. rewrite Hc. by apply IH.
Qed.

Lemma splitlines_line (l rest : string) :
  no_linebreak l = true →
  PyStr.splitlines (l +:+ String "010" rest) = l :: PyStr.splitlines rest.
Proof.
  intros Hl. unfold PyStr.splitlines.
  by rewrite splitlines_go_line, string_rev_rev_app.
Qed.

Lemma file_text_cons (x : string) (lines : list string) :
  file_text (x :: lines) = x +:+ String "010" (file_text lines).
Proof.
  unfold file_text, newline. destruct lines as [|y lines]; [done|].
  change (PyStr.join (String "010" "") (x :: y :: lines))
    with (x +:+ String "010" "" +:+ PyStr.join (String "010" "") (y :: lines)).
  rewrite !string_app_assoc. done.
Qed.

(** Reading a feed file back by lines gives the lines written. *)
Lemma splitlines_file_text (lines : list string) :
  Forall (λ l, no_linebreak l = true) lines →
  PyStr.splitlines (file_text lines) = lines.
Proof.
  induction 1 as [|l lines Hl _ IH]; [done|].
  by rewrite file_text_cons, splitlines_line, IH.
Qed.

(** X4: after [write_files], whatever the runtime directory held before,
    the bank and market files read back line by line as the lists written
    (for lines free of line-break characters), and the status file exists
    and is empty. *)
Theorem write_files_round_trip
    (bank_lines market_lines : list string) (fs : gmap string string) :
  Forall (λ l, no_linebreak l = true) bank_lines →
  Forall (λ l, no_linebreak l = true) market_lines →
  PyStr.splitlines <$> write_files bank_lines market_lines fs !! BANK
  = Some bank_lines
  ∧ PyStr.splitlines <$> write_files bank_lines market_lines fs !! MARKET
    = Some market_lines
  ∧ write_files bank_lines market_lines fs !! STATUS = Some "".
Proof.
  intros Hb Hm.
  assert (∀ fs0 : gmap string string,
            unlink_if_exists STATUS fs0 !! STATUS = None) as Hun.
  { intros fs0. unfold unlink_if_exists.
    destruct (fs0 !! STATUS) eqn:E; [apply lookup_delete_eq|done]. }
  unfold write_files. simpl.
  set (fs1 := unlink_if_exists STATUS _).
  assert (write_text MARKET (file_text market_lines)
            (write_text BANK (file_text bank_lines) fs1) !! STATUS = None)
    as Hst.
  { unfold write_text. rewrite !lookup_insert_ne by done. apply Hun. }
  unfold touch. rewrite Hst. unfold write_text.
  split_and!.
  - rewrite lookup_insert_ne, lookup_insert_ne, lookup_insert_eq by done.
    simpl. by rewrite splitlines_file_text.
  - rewrite lookup_insert_ne, lookup_insert_eq by done.
    simpl. by rewrite splitlines_file_text.
  - by rewrite lookup_insert_eq.
Qed.

Lemma write_files_round_trip_witness :
  PyStr.splitlines
    <$> write_files ["OBL00001,LSE"; ""; "OBL00002,NYSE"] []
          {[ STATUS := "NoMatch(old)" ]} !! BANK
  = Some ["OBL00001,LSE"; ""; "OBL00002,NYSE"]
  ∧ PyStr.splitlines
      <$> write_files ["OBL00001,LSE"; ""; "OBL00002,NYSE"] []
            {[ STATUS := "NoMatch(old)" ]} !! MARKET
    = Some []
  ∧ write_files ["OBL00001,LSE"; ""; "OBL00002,NYSE"] []
      {[ STATUS := "NoMatch(old)" ]} !! STATUS = Some "".
Proof.
  apply write_files_round_trip.
  - repeat constructor.
  - constructor.
Defined.

(** * Further properties of the orchestrator *)

Section OrchestratorMore.
Implicit Types (w : World) (s : OrchState) (expected : Triple).

Lemma cleanup_keeps_counters w s :
  sleeps (cleanup w s) = sleeps s ∧ looks (cleanup w s) = looks s.
Proof.
  unfold cleanup, wait_grace, terminate. simpl.
  destruct (child s), (obeys_terminate w); done.
Qed.

Lemma poll_finishes w expected timeout_sec start m :
  ∀ k fuel s,
    ticks s = S k →
    (timeout_sec <= clock w (S (k + m)) - start)%Q →
    (m < fuel)%nat →
    ∃ r s', poll fuel w expected timeout_sec start s = Some (r, s')
            ∧ (sleeps s' <= sleeps s + m)%nat.
Proof.
  induction m as [|m IH]; intros k fuel s Ht Hlate Hfuel.
  - destruct fuel as [|fuel]; [lia|].
    rewrite Nat.add_0_r in Hlate.
    simpl. rewrite Ht. unfold look. simpl.
    destruct (Qlt_le_dec _ _) as [Hlt|_].
    { exfalso. eapply Qlt_not_le; eauto. }
    destruct (status_at w (looks s)); simpl;
      eexists _, _; (split; [reflexivity|simpl; lia]).
  - destruct fuel as [|fuel]; [lia|].
    replace (k + S m)%nat with (S k + m)%nat in Hlate by lia.
    simpl. rewrite Ht. unfold look. simpl.
    destruct (Qlt_le_dec _ _) as [_|_].
    + destruct (status_at w (looks s)) as [|text|]; simpl.
      * edestruct (IH (S k) fuel) as (r & s' & Hp & Hs);
          [|exact Hlate|lia|].
        2:{ rewrite Hp. eexists _, _. split; [reflexivity|].
            simpl in Hs. lia. }
        reflexivity.
      * destruct (decide _).
        { eexists _, _. split; [reflexivity|simpl; lia]. }
        edestruct (IH (S k) fuel) as (r & s' & Hp & Hs);
          [|exact Hlate|lia|].
        2:{ rewrite Hp. eexists _, _. split; [reflexivity|].
            simpl in Hs. lia. }
        reflexivity.
      * eexists _, _. split; [reflexivity|simpl; lia].
    + destruct (status_at w (looks s)); simpl;
        eexists _, _; (split; [reflexivity|simpl; lia]).
Qed.

(** X5: once the clock passes the deadline at its [n]-th check, the
    orchestrator finishes within [n + 1] iterations, returning or
    raising, whatever the status file shows, and has slept at most [n]
    times. *)
Theorem orchestrator_finishes_by_deadline
    (n fuel : nat) w expected timeout_sec :
  (timeout_sec <= clock w (S n) - clock w 0%nat)%Q →
  (n < fuel)%nat →
  ∃ r s, run_kotlin_runner_and_wait fuel w expected timeout_sec
         = Some (r, s)
         ∧ (sleeps s <= n)%nat.
Proof.
  intros Hlate Hfuel. unfold run_kotlin_runner_and_wait. simpl.
  edestruct (poll_finishes w expected timeout_sec (clock w 0%nat) n
               0%nat fuel) as (r & s' & Hp & Hs);
    [|exact Hlate|exact Hfuel|].
  2:{ rewrite Hp. eexists _, _. split; [reflexivity|].
      destruct (cleanup_keeps_counters w s') as [-> _]. simpl in Hs. lia. }
  reflexivity.
Qed.

Lemma poll_result_is_last_look w expected timeout_sec start fuel :
  ∀ s r s',
    ticks s = S (looks s) → sleeps s = looks s →
    poll fuel w expected timeout_sec start s = Some (r, s') →
    looks s' = S (sleeps s')
    ∧ match r with
      | Ok t =>
          t = counts_at_timeout (status_at w (sleeps s'))
          ∧ status_at w (sleeps s') ≠ Unreadable
          ∧ (t = expected
             ∨ (timeout_sec <= clock w (S (sleeps s')) - start)%Q)
      | Exn => status_at w (sleeps s') = Unreadable
      end.
Proof.
  induction fuel as [|fuel IH]; intros s r s' Ht Hs; [done|].
  simpl. rewrite Ht. unfold look. simpl.
  destruct (Qlt_le_dec _ _) as [Hlt|Hle].
  - destruct (status_at w (looks s)) as [|text|] eqn:Eobs; simpl.
    + intros Hp. apply IH in Hp; [done|simpl; lia|simpl; lia].
    + destruct (decide _) as [E|NE].
      * intros [= <- <-]. simpl. rewrite Hs, Eobs. simpl.
        split_and!; [done|done|done|by left].
      * intros Hp. apply IH in Hp; [done|simpl; lia|simpl; lia].
    + intros [= <- <-]. simpl. by rewrite Hs, Eobs.
  - destruct (status_at w (looks s)) as [|text|] eqn:Eobs; simpl;
      intros [= <- <-]; simpl; rewrite Hs, Eobs; simpl;
      try done; (split_and!; [done|done|done|by right]).
Qed.

(** X6: whenever the orchestrator finishes it has looked at the status
    file exactly once more than it has slept; a returned triple is the
    count of what the last look found (zeros for a missing file), and it
    differs from the expected triple only when the deadline had passed;
    it raises only when the last look could not read the file. *)
Theorem orchestrator_result_is_last_look
    (fuel : nat) w expected timeout_sec (r : Result Triple) s :
  run_kotlin_runner_and_wait fuel w expected timeout_sec = Some (r, s) →
  looks s = S (sleeps s)
  ∧ match r with
    | Ok t =>
        t = counts_at_timeout (status_at w (sleeps s))
        ∧ status_at w (sleeps s) ≠ Unreadable
        ∧ (t = expected
           ∨ (timeout_sec <= clock w (S (sleeps s)) - clock w 0%nat)%Q)
    | Exn => status_at w (sleeps s) = Unreadable
    end.
Proof.
  unfold run_kotlin_runner_and_wait. simpl.
  destruct (poll _ _ _ _ _ _) as [[r' s']|] eqn:Hp; [|done].
  intros [= <- <-].
  apply poll_result_is_last_look in Hp; [|done|done].
  destruct (cleanup_keeps_counters w s') as [-> ->]. done.
Qed.
End OrchestratorMore.

Lemma orchestrator_finishes_by_deadline_witness :
  ∃ r s, run_kotlin_runner_and_wait 3 world_unreadable (1, 1, 0) 0.5
         = Some (r, s)
         ∧ (sleeps s <= 2)%nat.
Proof.
  apply (orchestrator_finishes_by_deadline 2 3 world_unreadable (1, 1, 0) 0.5).
  - vm_compute. discriminate.
  - lia.
Defined.

Lemma orchestrator_result_is_last_look_witness :
  ∃ s, run_kotlin_runner_and_wait 3 world_stuck (1, 1, 0) 0.5
       = Some (Ok (0, 1, 0), s)
       ∧ looks s = S (sleeps s)
       ∧ (0, 1, 0) = counts_at_timeout (status_at world_stuck (sleeps s)).
Proof.
  eexists. split; [vm_compute; reflexivity|].
  edestruct (orchestrator_result_is_last_look 3 world_stuck (1, 1, 0) 0.5
               (Ok (0, 1, 0))) as (Hl & Hc & _);
    [vm_compute; reflexivity|].
  split; [exact Hl|exact Hc].
Defined.

(** * Counting status lines *)

Lemma line_in_one_category (line : string) :
  (Nat.b2n (is_matched_line line) + Nat.b2n (is_nomatch_line line)
   + Nat.b2n (is_duplicate_line line) <= 1)%nat.
Proof.
  unfold is_matched_line, is_nomatch_line, is_duplicate_line,
    PyStr.startswith.
  destruct line as [|c line]; [simpl; lia|].
  cbn [String.prefix].
  destruct (ascii_dec "S" c) as [HS|HS], (ascii_dec "N" c) as [HN|HN],
    (ascii_dec "D" c) as [HD|HD];
    try (rewrite <- HS in HN; discriminate);
    try (rewrite <- HS in HD; discriminate);
    try (rewrite <- HN in HD; discriminate);
    cbn [andb Nat.b2n];
    repeat match goal with
           | |- context [Nat.b2n ?b] => destruct b; cbn [andb Nat.b2n]
           end; lia.
Qed.

Lemma count_filters_bounded (lines : list string) :
  (length (filter (λ l, is_matched_line l = true) lines)
   + length (filter (λ l, is_nomatch_line l = true) lines)
   + length (filter (λ l, is_duplicate_line l = true) lines)
   <= length lines)%nat.
Proof.
  induction lines as [|l lines IH]; [simpl; lia|].
  rewrite !filter_cons.
  pose proof (line_in_one_category l) as Hl.
  destruct (is_matched_line l), (is_nomatch_line l), (is_duplicate_line l);
    simpl in *; repeat case_decide; try done; simpl; lia.
Qed.

(** X7: every line of the status text is counted in at most one of the
    three categories: the counts are non-negative and their sum is at
    most the number of lines. *)
Theorem observed_counts_disjoint (text : string) :
  let '(m, u, d) := observed_counts text in
  0 <= m ∧ 0 <= u ∧ 0 <= d
  ∧ m + u + d <= Z.of_nat (length (PyStr.splitlines text)).
Proof.
  unfold observed_counts, count_lines.
  pose proof (count_filters_bounded (PyStr.splitlines text)). lia.
Qed.

(** * Further properties of the metrics collector *)

Lemma well_formed_zero_metrics : well_formed_metrics zero_metrics.
Proof.
  unfold well_formed_metrics, zero_metrics.
  split_and!; try (eexists; vm_compute; reflexivity).
  intros k [v Hk].
  destruct (decide (k ∈ metric_keys)) as [|Hn]; [done|]. exfalso.
  unfold metric_keys in Hn. rewrite !not_elem_of_cons in Hn.
  destruct Hn as (? & ? & ? & ? & _).
  rewrite !lookup_insert_ne, lookup_empty in Hk by done. done.
Qed.

Lemma well_formed_insert_float (d : gmap string PyNum) (key : string) q :
  key ∈ ["memory_mb"; "gc_time_ms"; "cpu_time_ms"] →
  well_formed_metrics d → well_formed_metrics (<[key := PFloat q]> d).
Proof.
  intros Hkey (Hm & Hg & Hc & Hp & Hdom).
  assert (key ∈ metric_keys) as Hin.
  { apply list_elem_of_In in Hkey. apply list_elem_of_In.
    simpl in *. intuition. }
  assert (key ≠ "peak_entities") as Hne.
  { intros ->. apply list_elem_of_In in Hkey. simpl in Hkey.
    intuition discriminate. }
  split_and!.
  1-3: match goal with
       | |- ∃ _, _ !! ?k = _ =>
           destruct (decide (key = k)) as [->|?];
           [rewrite lookup_insert_eq; by eexists
           |by rewrite lookup_insert_ne]
       end.
  - by rewrite lookup_insert_ne.
  - intros k Hk. destruct (decide (key = k)) as [<-|?]; [done|].
    rewrite lookup_insert_ne in Hk by done. by apply Hdom.
Qed.

Lemma well_formed_insert_int (d : gmap string PyNum) z :
  well_formed_metrics d →
  well_formed_metrics (<["peak_entities" := PInt z]> d).
Proof.
  intros (Hm & Hg & Hc & Hp & Hdom).
  split_and!.
  1-3: by rewrite lookup_insert_ne.
  - rewrite lookup_insert_eq. by eexists.
  - intros k Hk. destruct (decide ("peak_entities" = k)) as [<-|?].
    + apply list_elem_of_In. simpl. intuition.
    + rewrite lookup_insert_ne in Hk by done. by apply Hdom.
Qed.

Lemma apply_pair_well_formed (d : gmap string PyNum) (pair : string) :
  well_formed_metrics d → well_formed_metrics (apply_pair d pair).
Proof.
  intros Hd. unfold apply_pair, store_parsed.
  destruct (PyStr.split_once "=" pair) as [[k v]|]; [|done].
  repeat case_decide; try done.
  - destruct (PyNumParse.py_float _); [|done].
    apply well_formed_insert_float;
      [apply list_elem_of_In; simpl; intuition|done].
  - destruct (PyNumParse.py_float _); [|done].
    apply well_formed_insert_float;
      [apply list_elem_of_In; simpl; intuition|done].
  - destruct (PyNumParse.py_float _); [|done].
    apply well_formed_insert_float;
      [apply list_elem_of_In; simpl; intuition|done].
  - destruct (PyNumParse.py_int _); [|done].
    by apply well_formed_insert_int.
Qed.

Lemma foldl_apply_pair_well_formed (pairs : list string) :
  ∀ d, well_formed_metrics d → well_formed_metrics (foldl apply_pair d pairs).
Proof.
  induction pairs as [|p pairs IH]; intros d Hd; [done|].
  simpl. apply IH. by apply apply_pair_well_formed.
Qed.

(** X8: for every engine output the parsed dictionary has exactly the
    keys [memory_mb], [gc_time_ms], [cpu_time_ms] and [peak_entities]; the
    first three hold floats and the last an int, whatever the marker line
    contains. *)
Theorem parse_kotlin_metrics_well_formed (stdout : string) :
  well_formed_metrics (_parse_kotlin_metrics stdout).
Proof.
  unfold _parse_kotlin_metrics.
  generalize (PyStr.splitlines stdout). intros lines.
  induction lines as [|l lines IH]; simpl.
  - apply well_formed_zero_metrics.
  - destruct (PyStr.startswith metrics_marker l); [|done].
    unfold parse_metrics_line.
    apply foldl_apply_pair_well_formed, well_formed_zero_metrics.
Qed.




(** * Further properties of the benchmark runner *)

(** X10: the recorded throughput is the number of status events per
    second of wall-clock time, and is zero, with no division, when the
    clock did not advance between the two readings. *)
Theorem measured_throughput
    (cfg : BenchmarkConfig) (obs : RunObs) (pd : gmap string PyNum) :
  ((start_time obs < end_time obs)%Q →
   (throughput_ops_per_sec (measured cfg obs pd)
    * (end_time obs - start_time obs)
    == inject_Z (num_status_events cfg))%Q)
  ∧ ((end_time obs <= start_time obs)%Q →
     throughput_ops_per_sec (measured cfg obs pd) = 0%Q).
Proof.
  unfold measured. simpl.
  destruct (Qlt_le_dec 0 ((end_time obs - start_time obs) * 1000)) as [Hp|Hn].
  - split.
    + intros Hlt. field. Lqa.lra.
    + intros Hle. exfalso. Lqa.lra.
  - split; [|done]. intros Hlt. exfalso. Lqa.lra.
Qed.

Lemma measured_throughput_witness :
  (start_time silent_run < end_time silent_run)%Q
  ∧ (throughput_ops_per_sec (measured micro_config silent_run zero_metrics)
     * (end_time silent_run - start_time silent_run)
     == inject_Z (num_status_events micro_config))%Q.
Proof.
  assert (start_time silent_run < end_time silent_run)%Q as Hlt
    by (vm_compute; reflexivity).
  split; [exact Hlt|].
  destruct (measured_throughput micro_config silent_run zero_metrics)
    as [Hpos _].
  exact (Hpos Hlt).
Defined.

Section BenchmarkErrors.
Context {G : Type} `{RandomSource G}.

Lemma warmup_loop_completed cfg world n :
  ∀ run (g g' : G) u,
    warmup_loop cfg world run n g = Some (u, g') →
    ∀ i, (i < n)%nat →
         ∃ stdout, engine (world (run + i)%nat) = Completed stdout.
Proof.
  induction n as [|n IH]; intros run g g' u Hw i Hi; [lia|].
  simpl in Hw. unfold ebind at 1 in Hw.
  unfold _run_single_measurement, ebind, of_option, eret in Hw.
  destruct (_generate_dataset cfg g) as [[ds g1]|]; [|done].
  unfold _run_kotlin_with_profiling in Hw.
  destruct (engine (world run)) as [stdout| |] eqn:Een; simpl in Hw;
    [|done|done].
  destruct i as [|i].
  - exists stdout. by rewrite Nat.add_0_r.
  - replace (run + S i)%nat with (S run + i)%nat by lia.
    eapply IH; [exact Hw|lia].
Qed.

(** X11: with no measurement iteration (a count of zero or less) the
    benchmark never returns a result: the mean of no data raises, even
    when every warm-up launch succeeded. *)
Theorem run_benchmark_needs_a_measurement
    (cfg : BenchmarkConfig) (world : nat → RunObs) (now : string) (g : G) :
  measurement_iterations cfg <= 0 →
  run_benchmark cfg world now g = None.
Proof.
  intros Hm. unfold run_benchmark, ebind.
  destruct (warmup_loop _ _ _ _ g) as [[u g1]|]; [|done].
  replace (Z.to_nat (measurement_iterations cfg)) with 0%nat by lia.
  reflexivity.
Qed.

(** X12: a benchmark returns a result only if every launch of the
    engine, warm-up launches included, ran to completion: one timeout or
    failed spawn anywhere aborts the whole scenario. *)
Theorem run_benchmark_all_launches_completed
    (cfg : BenchmarkConfig) (world : nat → RunObs) (now : string)
    (g g' : G) (r : BenchmarkResult) :
  run_benchmark cfg world now g = Some (r, g') →
  ∀ i, (i < Z.to_nat (warmup_iterations cfg)
            + Z.to_nat (measurement_iterations cfg))%nat →
       ∃ stdout, engine (world i) = Completed stdout.
Proof.
  unfold run_benchmark, ebind.
  destruct (warmup_loop _ _ _ _ g) as [[u g1]|] eqn:Hw; [|done].
  destruct (measurement_loop _ _ _ _ _ g1) as [[ms g2]|] eqn:Hm; [|done].
  intros _ i Hi.
  destruct (decide (i < Z.to_nat (warmup_iterations cfg))%nat) as [Hlt|Hge].
  - eapply (warmup_loop_completed _ _ _ 0%nat) in Hw; [|exact Hlt]. done.
  - apply measurement_loop_spec in Hm as (new & _ & _ & Hnew).
    destruct (Hnew (i - Z.to_nat (warmup_iterations cfg))%nat ltac:(lia))
      as (stdout & Hen & _).
    exists stdout.
    by replace (Z.to_nat (warmup_iterations cfg)
                + (i - Z.to_nat (warmup_iterations cfg)))%nat
      with i in Hen by lia.
Qed.
End BenchmarkErrors.

Lemma run_benchmark_needs_a_measurement_witness :
  run_benchmark
    {| name := "none"; description := "no measurement";
       num_obligations := 1; num_status_events := 1;
       num_duplicates := 0; num_unmatches := 0;
       warmup_iterations := 1; measurement_iterations := 0;
       timeout_sec := 60 |}
    two_runs_world fixed_instant (seeded (G:=Z) 12345) = None.
Proof.
  apply (run_benchmark_needs_a_measurement (G:=Z)). simpl. lia.
Defined.

Lemma run_benchmark_all_launches_completed_witness :
  ∃ stdout, engine (two_runs_world 1) = Completed stdout.
Proof.
  destruct (run_benchmark two_runs_config two_runs_world fixed_instant
              (seeded (G:=Z) 12345)) as [[r g']|] eqn:Hrun.
  - apply (run_benchmark_all_launches_completed (G:=Z) _ _ _ _ _ _ Hrun).
    simpl. lia.
  - exfalso. vm_compute in Hrun. discriminate.
Defined.

Section BenchDatasetErrors.
Context {G : Type} `{RandomSource G}.

(** X13: unlike [generate_dataset], which treats a non-positive duplicate
    count as zero, the benchmark generator raises on a negative one (the
    sample size is negative). *)
Theorem bench_dataset_negative_duplicates_raise
    (cfg : BenchmarkConfig) (g : G) :
  num_duplicates cfg < 0 → _generate_dataset cfg g = None.
Proof.
  intros Hneg. unfold _generate_dataset, ebind.
  destruct (bench_events cfg g) as [[te g1]|]; [|done].
  unfold sample. rewrite bool_decide_eq_false_2 by lia. done.
Qed.

(** X14: asked for status events but no obligation, the benchmark
    generator raises: there is no trade to choose from. *)
Theorem bench_dataset_without_obligations_raises
    (cfg : BenchmarkConfig) (g : G) :
  num_obligations cfg <= 0 → 0 < num_status_events cfg →
  _generate_dataset cfg g = None.
Proof.
  intros Hob Hev. unfold _generate_dataset, ebind at 1.
  unfold bench_events, ebind, lift.
  pose proof (make_trades_length (num_obligations cfg) g) as Hlen.
  destruct (make_trades (num_obligations cfg) g) as [trades g1].
  simpl in Hlen. destruct trades as [|t trades]; [|simpl in Hlen; lia].
  simpl. rewrite Z.sub_0_r.
  destruct (Z.to_nat (num_status_events cfg)) as [|n] eqn:En; [lia|].
  reflexivity.
Qed.

Lemma bench_events_shape (cfg : BenchmarkConfig) (g : G) :
  0 < num_obligations cfg →
  ∃ extra g',
    bench_events cfg g
    = Some (((make_trades (num_obligations cfg) g).1,
             (primary_event_of <$> (make_trades (num_obligations cfg) g).1)
               ++ extra), g')
    ∧ length extra
      = Z.to_nat (num_status_events cfg - num_obligations cfg)
    ∧ ∀ j e, extra !! j = Some e →
        extends (make_trades (num_obligations cfg) g).1
          ((primary_event_of <$> (make_trades (num_obligations cfg) g).1)
             ++ take j extra) j e.
Proof.
  intros Hpos. unfold bench_events, ebind, lift.
  pose proof (make_trades_length (num_obligations cfg) g) as Hlen.
  pose proof (bench_primary_tracks (num_obligations cfg) g) as Htr.
  destruct (make_trades (num_obligations cfg) g) as [trades g1].
  simpl in Hlen, Htr |- *.
  assert (trades ≠ []) as Hne.
  { intros ->. simpl in Hlen. lia. }
  destruct (additional_loop_spec trades
              (Z.to_nat (num_status_events cfg - Z.of_nat (length trades)))
              0 (bench_primary trades) g1 Hne Htr)
    as (extra & ms & g2 & -> & Hex_len & Hex).
  rewrite bench_primary_fst in *. simpl.
  exists extra, g2.
  split_and!; [done|rewrite Hex_len; f_equal; lia|done].
Qed.
End BenchDatasetErrors.

Lemma bench_dataset_negative_duplicates_raise_witness :
  _generate_dataset
    {| name := "neg"; description := "negative duplicates";
       num_obligations := 2; num_status_events := 3;
       num_duplicates := -1; num_unmatches := 0;
       warmup_iterations := 0; measurement_iterations := 1;
       timeout_sec := 60 |} (seeded (G:=Z) 12345) = None.
Proof.
  apply (bench_dataset_negative_duplicates_raise (G:=Z)). simpl. lia.
Defined.

Lemma bench_dataset_without_obligations_raises_witness :
  _generate_dataset
    {| name := "empty"; description := "no obligations";
       num_obligations := 0; num_status_events := 3;
       num_duplicates := 0; num_unmatches := 0;
       warmup_iterations := 0; measurement_iterations := 1;
       timeout_sec := 60 |} (seeded (G:=Z) 12345) = None.
Proof.
  apply (bench_dataset_without_obligations_raises (G:=Z)); simpl; lia.
Defined.

(** ** Message ids and sequence numbers *)

Lemma count_msg_take_le (m : string) (es : list MarketEvent) (j : nat) :
  count_msg m (take j es) <= count_msg m es.
Proof.
  rewrite <- (take_drop j es) at 2. rewrite count_msg_app.
  unfold count_msg. lia.
Qed.

Lemma count_msg_take_lt (m : string) (es : list MarketEvent) (i : nat) e :
  es !! i = Some e → msg_id e = m →
  count_msg m (take i es) < count_msg m es.
Proof.
  intros Hi Hm.
  pose proof (count_msg_take_le m es (S i)) as Hle.
  rewrite (take_S_r _ _ _ Hi), count_msg_snoc, decide_True in Hle by done.
  lia.
Qed.

Lemma numbered_NoDup (es : list MarketEvent) :
  numbered es → NoDup (event_key <$> es).
Proof.
  induction es as [|x es IH] using rev_ind; intros Hn; [constructor|].
  rewrite fmap_app. simpl. apply NoDup_app. split_and!.
  - apply IH. intros i e Hi.
    pose proof (Hn i e) as Hne.
    rewrite lookup_app_l in Hne by (by eapply lookup_lt_Some).
    rewrite take_app_le in Hne by (apply Nat.lt_le_incl; by eapply lookup_lt_Some).
    by apply Hne.
  - intros k Hk Hx. apply list_elem_of_singleton in Hx. subst k.
    apply list_elem_of_fmap in Hk as (e & Hkey & He).
    apply list_elem_of_lookup in He as (i & Hi).
    unfold event_key in Hkey. injection Hkey as Hm Hs.
    pose proof (Hn i e) as Hne.
    rewrite lookup_app_l in Hne by (by eapply lookup_lt_Some).
    rewrite take_app_le in Hne by (apply Nat.lt_le_incl; by eapply lookup_lt_Some).
    specialize (Hne Hi).
    pose proof (Hn (length es) x) as Hnx.
    rewrite list_lookup_middle in Hnx by done.
    rewrite take_app_length in Hnx. specialize (Hnx eq_refl).
    pose proof (count_msg_take_lt (msg_id x) es i e Hi (eq_sym Hm)) as Hlt.
    rewrite <- Hm in Hne. lia.
  - apply NoDup_singleton.
Qed.

Lemma primary_events_numbered (trades : list Trade) :
  NoDup (obligation_id <$> trades) →
  numbered (primary_event_of <$> trades).
Proof.
  intros Hnd i e Hi.
  rewrite list_lookup_fmap in Hi.
  destruct (trades !! i) as [t|] eqn:Ht; [|done].
  injection Hi as <-. simpl.
  rewrite <- fmap_take, count_msg_primary_absent; [done|].
  intros t' Ht' E. apply msg_of_inj in E.
  apply list_elem_of_lookup in Ht' as (j & Hj).
  apply lookup_take_Some in Hj as [Hj Hlt].
  assert ((obligation_id <$> trades) !! j = Some (obligation_id t')) as Hj'
    by (by rewrite list_lookup_fmap, Hj).
  assert ((obligation_id <$> trades) !! i = Some (obligation_id t)) as Hi'
    by (by rewrite list_lookup_fmap, Ht).
  rewrite E in Hj'.
  pose proof (NoDup_lookup _ _ _ _ Hnd Hj' Hi'). lia.
Qed.

Section BenchNumbering.
Context {G : Type} `{RandomSource G}.

Lemma bench_events_nonpositive (cfg : BenchmarkConfig) (g g' : G) te :
  num_obligations cfg <= 0 →
  bench_events cfg g = Some (te, g') → te = ([], []).
Proof.
  intros Hob. unfold bench_events, ebind, lift.
  pose proof (make_trades_length (num_obligations cfg) g) as Hlen.
  destruct (make_trades (num_obligations cfg) g) as [trades g1].
  simpl in Hlen. destruct trades as [|t trades]; [|simpl in Hlen; lia].
  simpl. rewrite Z.sub_0_r.
  destruct (Z.to_nat (num_status_events cfg)) as [|n]; [|done].
  simpl. unfold eret. by intros [= <- <-].
Qed.

(** X16: before the duplicates are added, every event of the benchmark
    dataset carries, as its sequence number, one more than the number of
    earlier events under the same message id; so no two of these events
    share a message id and a sequence number. *)
Theorem bench_events_keys_unique
    (cfg : BenchmarkConfig) (g g' : G)
    (trades : list Trade) (events : list MarketEvent) :
  bench_events cfg g = Some ((trades, events), g') →
  numbered events ∧ NoDup (event_key <$> events).
Proof.
  intros Hev.
  assert (numbered events) as Hn; [|split; [done|by apply numbered_NoDup]].
  destruct (Z.le_gt_cases (num_obligations cfg) 0) as [Hle|Hpos].
  { apply (bench_events_nonpositive _ _ _ _ Hle) in Hev.
    injection Hev as -> ->. intros i e Hi. done. }
  destruct (bench_events_shape cfg g ltac:(lia))
    as (extra & g2 & Hsh & Hlen & Hext).
  rewrite Hsh in Hev. injection Hev as <- <- <-.
  set (trs := (make_trades (num_obligations cfg) g).1) in *.
  pose proof (primary_events_numbered trs
                (make_trades_ids_NoDup (num_obligations cfg) g)) as Hprim.
  intros i e Hi.
  destruct (decide (i < length (primary_event_of <$> trs))%nat) as [Hlt|Hge].
  - rewrite lookup_app_l in Hi by done.
    rewrite take_app_le by lia. by apply Hprim.
  - rewrite lookup_app_r in Hi by lia.
    destruct (Hext _ _ Hi) as (t & _ & ->).
    rewrite seq_no_additional_event, msg_id_additional_event.
    rewrite take_app_ge by lia. done.
Qed.
End BenchNumbering.

Lemma bench_events_keys_unique_witness :
  ∃ trades events g',
    bench_events micro_config (seeded (G:=Z) 12345)
    = Some ((trades, events), g')
    ∧ length events = 20%nat
    ∧ NoDup (event_key <$> events).
Proof.
  destruct (bench_events micro_config (seeded (G:=Z) 12345))
    as [[[trades events] g']|] eqn:Hev.
  - exists trades, events, g'. split; [reflexivity|].
    split.
    + vm_compute in Hev. injection Hev as _ <- _. reflexivity.
    + apply (bench_events_keys_unique (G:=Z) _ _ _ _ _ Hev).
  - exfalso. vm_compute in Hev. discriminate.
Defined.

(** ** The whole benchmark dataset *)

Section BenchDraftFacts.
Context {G : Type} `{RandomSourceLaws G}.

Lemma generate_dataset_via_draft (cfg : BenchmarkConfig) (g : G) :
  _generate_dataset cfg g
  = match bench_draft cfg g with
    | Some (d, g1) =>
        let '(ml, g2) :=
          shuffle (b_events d ++ b_duplicates d ++ b_unmatches d) g1 in
        Some ((as_bank_line <$> b_trades d, market_line <$> ml), g2)
    | None => None
    end.
Proof.
  unfold _generate_dataset, bench_draft, ebind, of_option, lift, eret.
  destruct (bench_events cfg g) as [[te g1]|]; [|done].
  destruct (lift_opt _ g1) as [[idxs g2]|]; [|done].
  destruct (mapM _ idxs) as [dups|]; [|done]. simpl.
  destruct (for_range _ _ _ g2) as [fakes g3]. simpl.
  by destruct (shuffle _ g3).
Qed.

Lemma bench_draft_inv (cfg : BenchmarkConfig) (g g' : G) (d : BenchDraft) :
  bench_draft cfg g = Some (d, g') →
  (∃ g1, bench_events cfg g = Some ((b_trades d, b_events d), g1))
  ∧ (∃ idxs, NoDup idxs
             ∧ length idxs
               = Z.to_nat (Z.min (num_duplicates cfg)
                             (Z.of_nat (length (b_events d))))
             ∧ Forall2 (λ i e, b_events d !! i = Some e)
                 idxs (b_duplicates d))
  ∧ length (b_unmatches d) = Z.to_nat (num_unmatches cfg).
Proof.
  unfold bench_draft, ebind, of_option, lift, eret.
  destruct (bench_events cfg g) as [[[trades events] g1]|]; [|done].
  simpl. unfold sample.
  case_bool_decide as Hk; [|done]. simpl. unfold lift.
  set (k := Z.to_nat (Z.min (num_duplicates cfg) (Z.of_nat (length events)))).
  assert (k <= length events)%nat as Hle by lia.
  pose proof (sample_range_length (length events) k g1 Hle) as Hl.
  pose proof (sample_range_NoDup (length events) k g1 Hle) as Hn.
  destruct (sample_range (length events) k g1) as [idxs g2]. simpl in *.
  destruct (mapM _ idxs) as [dups|] eqn:Hm; [|done]. simpl.
  pose proof (for_range_length (G:=G) bench_fake_event 0
                (Z.to_nat (num_unmatches cfg)) g2) as Hf.
  destruct (for_range _ _ _ g2) as [fakes g3]. simpl in Hf.
  intros [= <- <-]. simpl.
  split_and!; [by eexists| |done].
  exists idxs. split_and!; [done|done|]. by apply mapM_Some_1.
Qed.

Lemma bench_draft_total (cfg : BenchmarkConfig) (g : G) :
  0 < num_obligations cfg → 0 <= num_duplicates cfg →
  ∃ d g', bench_draft cfg g = Some (d, g')
          ∧ b_trades d = (make_trades (num_obligations cfg) g).1
          ∧ length (b_events d)
            = Z.to_nat (Z.max (num_status_events cfg) (num_obligations cfg)).
Proof.
  intros Hob Hdup.
  destruct (bench_events_shape cfg g Hob) as (extra & g1 & Hev & Hlen & _).
  unfold bench_draft, ebind, of_option, lift, eret. rewrite Hev. simpl.
  set (events := _ ++ extra).
  unfold sample. rewrite bool_decide_eq_true_2 by lia. simpl. unfold lift.
  set (k := Z.to_nat (Z.min (num_duplicates cfg) (Z.of_nat (length events)))).
  assert (k <= length events)%nat as Hle by lia.
  pose proof (sample_range_bound (length events) k g1) as Hb.
  destruct (sample_range (length events) k g1) as [idxs g2]. simpl in *.
  destruct (mapM (λ idx, events !! idx) idxs) as [dups|] eqn:Hm.
  - simpl. destruct (for_range _ _ _ g2) as [fakes g3].
    eexists _, _. split_and!; [reflexivity|done|]. simpl.
    unfold events. rewrite length_app, length_fmap, make_trades_length, Hlen.
    lia.
  - exfalso. apply mapM_None in Hm. apply Exists_exists in Hm as (i & Hi & Hn).
    apply lookup_ge_None in Hn. specialize (Hb i Hle Hi). lia.
Qed.

(** X17: every duplicate of the benchmark dataset is a copy of one of the
    events written before, taken at pairwise distinct positions, and there
    are [min(num_duplicates, events so far)] of them. *)
Theorem bench_duplicates_copy_distinct_events
    (cfg : BenchmarkConfig) (g g' : G) (d : BenchDraft) :
  bench_draft cfg g = Some (d, g') →
  ∃ idxs, NoDup idxs
          ∧ length idxs
            = Z.to_nat (Z.min (num_duplicates cfg)
                          (Z.of_nat (length (b_events d))))
          ∧ Forall2 (λ i e, b_events d !! i = Some e) idxs (b_duplicates d).
Proof. intros Hd. by apply bench_draft_inv in Hd as (_ & Hdup & _). Qed.

Lemma bench_dataset_shape (cfg : BenchmarkConfig) (g : G) :
  0 < num_obligations cfg → 0 <= num_duplicates cfg →
  ∃ d g1 market_lines g2,
    bench_draft cfg g = Some (d, g1)
    ∧ _generate_dataset cfg g
      = Some ((as_bank_line <$> b_trades d, market_lines), g2)
    ∧ obligation_id <$> b_trades d
      = obligation_id_at <$> seq 0 (Z.to_nat (num_obligations cfg))
    ∧ market_lines
      ≡ₚ market_line <$> (b_events d ++ b_duplicates d ++ b_unmatches d)
    ∧ Z.of_nat (length market_lines)
      = Z.max (num_status_events cfg) (num_obligations cfg)
        + Z.min (num_duplicates cfg)
            (Z.max (num_status_events cfg) (num_obligations cfg))
        + Z.max (num_unmatches cfg) 0.
Proof.
  intros Hob Hdup.
  destruct (bench_draft_total cfg g Hob Hdup) as (d & g1 & Hd & Htr & Hev).
  destruct (bench_draft_inv cfg g g1 d Hd)
    as (_ & (idxs & _ & Hlen & Hall) & Hun).
  rewrite generate_dataset_via_draft, Hd.
  pose proof (shuffle_Permutation
                (b_events d ++ b_duplicates d ++ b_unmatches d) g1) as Hp.
  destruct (shuffle _ g1) as [ml g2]. simpl in Hp.
  exists d, g1, (market_line <$> ml), g2.
  split_and!; [done|done| | |].
  - rewrite Htr. apply make_trades_ids.
  - by rewrite Hp.
  - rewrite length_fmap, Hp, !length_app.
    apply Forall2_length in Hall. rewrite <- Hall, Hlen, Hun, Hev. lia.
Qed.

(** X15: with at least one obligation and a non-negative duplicate count
    the benchmark generator returns; the bank lines are one per trade in
    index order (they are not shuffled); the market lines are a
    rearrangement of the events, duplicates and unmatches; and with
    [E = max(num_status_events, num_obligations)] events there are
    [E + min(num_duplicates, E) + max(num_unmatches, 0)] market lines. *)
Theorem bench_dataset_sizes (cfg : BenchmarkConfig) (g : G) :
  0 < num_obligations cfg → 0 <= num_duplicates cfg →
  ∃ d g1 market_lines g2,
    bench_draft cfg g = Some (d, g1)
    ∧ _generate_dataset cfg g
      = Some ((as_bank_line <$> b_trades d, market_lines), g2)
    ∧ obligation_id <$> b_trades d
      = obligation_id_at <$> seq 0 (Z.to_nat (num_obligations cfg))
    ∧ market_lines
      ≡ₚ market_line <$> (b_events d ++ b_duplicates d ++ b_unmatches d)
    ∧ Z.of_nat (length market_lines)
      = Z.max (num_status_events cfg) (num_obligations cfg)
        + Z.min (num_duplicates cfg)
            (Z.max (num_status_events cfg) (num_obligations cfg))
        + Z.max (num_unmatches cfg) 0.
Proof. apply bench_dataset_shape. Qed.

Lemma scenario_generates (cfg : BenchmarkConfig) (g : G) :
  0 < num_obligations cfg <= num_status_events cfg →
  0 <= num_duplicates cfg <= num_status_events cfg →
  0 <= num_unmatches cfg →
  ∃ bank_lines market_lines g',
    _generate_dataset cfg g = Some ((bank_lines, market_lines), g')
    ∧ Z.of_nat (length bank_lines) = num_obligations cfg
    ∧ Z.of_nat (length market_lines)
      = num_status_events cfg + num_duplicates cfg + num_unmatches cfg.
Proof.
  intros Hob Hdup Hun.
  destruct (bench_dataset_shape cfg g ltac:(lia) ltac:(lia))
    as (d & g1 & ml & g2 & _ & Hgen & Hids & _ & Hlen).
  exists (as_bank_line <$> b_trades d), ml, g2.
  split_and!; [exact Hgen| |lia].
  rewrite length_fmap, <- (length_fmap obligation_id), Hids,
    length_fmap, length_seq. lia.
Qed.

(** X18: each of the seven standard scenarios generates without raising,
    whatever the generator draws, and yields as many bank lines as
    obligations and exactly
    [num_status_events + num_duplicates + num_unmatches] market lines. *)
Theorem standard_scenarios_generate (g : G) :
  Forall (λ cfg,
            ∃ bank_lines market_lines g',
              _generate_dataset cfg g = Some ((bank_lines, market_lines), g')
              ∧ Z.of_nat (length bank_lines) = num_obligations cfg
              ∧ Z.of_nat (length market_lines)
                = num_status_events cfg + num_duplicates cfg
                  + num_unmatches cfg)
    create_benchmark_scenarios.
Proof.
  unfold create_benchmark_scenarios.
  repeat (constructor;
          [apply scenario_generates; unfold micro_config; simpl; lia|]).
  constructor.
Qed.
End BenchDraftFacts.

Lemma bench_duplicates_copy_distinct_events_witness :
  ∃ d g' idxs,
    bench_draft micro_config (seeded (G:=Z) 12345) = Some (d, g')
    ∧ NoDup idxs
    ∧ Forall2 (λ i e, b_events d !! i = Some e) idxs (b_duplicates d).
Proof.
  destruct (bench_draft micro_config (seeded (G:=Z) 12345))
    as [[d g']|] eqn:Hd.
  - destruct (bench_duplicates_copy_distinct_events (G:=Z) _ _ _ _ Hd)
      as (idxs & Hnd & _ & Hall).
    exists d, g', idxs. split_and!; [reflexivity|exact Hnd|exact Hall].
  - exfalso. vm_compute in Hd. discriminate.
Defined.

Lemma bench_dataset_sizes_witness :
  0 < num_obligations micro_config
  ∧ 0 <= num_duplicates micro_config
  ∧ ∃ d g1 market_lines g2,
      bench_draft micro_config (seeded (G:=Z) 12345) = Some (d, g1)
      ∧ _generate_dataset micro_config (seeded (G:=Z) 12345)
        = Some ((as_bank_line <$> b_trades d, market_lines), g2)
      ∧ obligation_id <$> b_trades d = obligation_id_at <$> seq 0 10
      ∧ market_lines
        ≡ₚ market_line <$> (b_events d ++ b_duplicates d ++ b_unmatches d)
      ∧ Z.of_nat (length market_lines) = 23.
Proof.
  assert (0 < num_obligations micro_config) as Hob by (simpl; lia).
  assert (0 <= num_duplicates micro_config) as Hdup by (simpl; lia).
  split; [exact Hob|]. split; [exact Hdup|].
  exact (bench_dataset_sizes (G:=Z) micro_config (seeded 12345) Hob Hdup).
Defined.

Lemma standard_scenarios_generate_witness :
  Forall (λ cfg,
            ∃ bank_lines market_lines g',
              _generate_dataset cfg (seeded (G:=Z) 12345)
              = Some ((bank_lines, market_lines), g')
              ∧ Z.of_nat (length bank_lines) = num_obligations cfg
              ∧ Z.of_nat (length market_lines)
                = num_status_events cfg + num_duplicates cfg
                  + num_unmatches cfg)
    create_benchmark_scenarios.
Proof. exact (standard_scenarios_generate (G:=Z) (seeded 12345)). Defined.

(** * Comparing two results *)

Lemma py_div_None (a b : Q) : py_div a b = None ↔ (b == 0)%Q.
Proof.
  unfold py_div. destruct (Qeq_bool b 0) eqn:E.
  - apply Qeq_bool_iff in E. done.
  - split; [done|]. intros Hb. apply Qeq_bool_iff in Hb. congruence.
Qed.

Lemma percent_change_None (base new : Q) :
  percent_change base new = None ↔ (base == 0)%Q.
Proof.
  unfold percent_change. rewrite <- (py_div_None new base).
  destruct (py_div new base); simpl; split; done.
Qed.

(** X19: the percentage printed for a field is the relative difference
    [(new - base) / base * 100]; it is defined exactly when the baseline
    value is not zero (a zero baseline raises the division error), and it
    is positive exactly when the new value exceeds a positive baseline. *)
Theorem percent_change_spec (base new : Q) :
  (percent_change base new = None ↔ (base == 0)%Q)
  ∧ ∀ d, percent_change base new = Some d →
         (d == (new - base) / base * 100)%Q
         ∧ ((0 < base)%Q → ((0 < d)%Q ↔ (base < new)%Q)).
Proof.
  split; [apply percent_change_None|].
  intros d Hd. unfold percent_change, py_div in Hd.
  destruct (Qeq_bool base 0) eqn:E; [done|].
  simpl in Hd.
  assert (d = ((new / base - 1) * 100)%Q) as -> by congruence.
  assert (~ base == 0)%Q as Hb.
  { intros Hb. apply Qeq_bool_iff in Hb. congruence. }
  split; [by field|].
  intros Hpos.
  assert ((new / base - 1) * 100 == (new - base) * (100 / base))%Q as ->
    by (by field).
  assert (0 < 100 / base)%Q as Hinv.
  { apply Qlt_shift_div_l; [done|]. Lqa.lra. }
  split.
  - intros Hd'.
    destruct (Qlt_le_dec base new) as [|Hle]; [done|]. exfalso.
    assert ((new - base) * (100 / base) <= 0 * (100 / base))%Q as Hc.
    { apply Qmult_le_compat_r; [Lqa.lra|by apply Qlt_le_weak]. }
    Lqa.lra.
  - intros Hlt. apply Qmult_lt_0_compat; [Lqa.lra|done].
Qed.

Lemma percent_change_spec_witness :
  percent_change 100 120 = Some ((120 / 100 - 1) * 100)%Q
  ∧ ((120 / 100 - 1) * 100 == (120 - 100) / 100 * 100)%Q.
Proof.
  split; [reflexivity|].
  destruct (percent_change_spec 100 120) as [_ Hd].
  destruct (Hd ((120 / 100 - 1) * 100)%Q eq_refl) as [Heq _].
  exact Heq.
Defined.

Lemma Qsum_zero (xs : list Q) :
  Forall (λ x, x == 0)%Q xs → (Qsum xs == 0)%Q.
Proof.
  induction 1 as [|x xs Hx _ IH]; [done|].
  simpl. rewrite Hx, IH. done.
Qed.

Section CompareAfterRun.
Context {G : Type} `{RandomSource G}.

(** X20: a result measured on an engine that printed no metrics line in
    any measurement iteration has a mean GC time of zero, so using it as
    the baseline of a comparison raises the division error, whatever it
    is compared with. *)
Theorem baseline_without_metrics_cannot_be_compared
    (cfg : BenchmarkConfig) (world : nat → RunObs) (now : string)
    (g g' : G) (r : BenchmarkResult) (other : PerformanceMetrics) :
  run_benchmark cfg world now g = Some (r, g') →
  (∀ i stdout,
     engine (world (Z.to_nat (warmup_iterations cfg) + i)%nat)
     = Completed stdout →
     no_marker (PyStr.splitlines stdout)) →
  (num_value (gc_time_ms (mean_metrics r)) == 0)%Q
  ∧ comparison_deltas (mean_metrics r) other = None.
Proof.
  intros Hrun Hnone.
  assert (num_value (gc_time_ms (mean_metrics r)) == 0)%Q as Hgc.
  { revert Hrun. unfold run_benchmark, ebind, of_option, eret.
    destruct (warmup_loop _ _ _ _ g) as [[u g1]|]; [|done].
    destruct (measurement_loop _ _ _ _ _ g1) as [[ms g2]|] eqn:Hloop; [|done].
    destruct (_calculate_mean_metrics cfg ms) as [mm|] eqn:Hmean; [|done].
    simpl. intros [= <- <-]. simpl.
    apply measurement_loop_spec in Hloop as (new & Hms & Hlen & Hnew).
    simpl in Hms. subst new.
    unfold _calculate_mean_metrics in Hmean.
    destruct (mean (duration_ms <$> ms)) as [d|]; [|done].
    destruct (mean (throughput_ops_per_sec <$> ms)) as [t|]; [|done].
    destruct (mean ((λ x, num_value (memory_used_mb x)) <$> ms))
      as [m|]; [|done].
    destruct (mean ((λ x, num_value (gc_time_ms x)) <$> ms))
      as [gc|] eqn:Egc; [|done].
    destruct (mean ((λ x, num_value (cpu_time_ms x)) <$> ms)) as [c|]; [|done].
    destruct (mean ((λ x, num_value (peak_entities x)) <$> ms))
      as [p|]; [|done].
    simpl in Hmean. injection Hmean as <-. simpl.
    rewrite (mean_unfold _ _ Egc).
    assert (Qsum ((λ x, num_value (gc_time_ms x)) <$> ms) == 0)%Q as ->.
    { apply Qsum_zero. apply Forall_fmap, Forall_lookup.
      intros i x Hx. simpl.
      destruct (Hnew i) as (stdout & Hen & Hlk).
      { rewrite <- Hlen. by eapply lookup_lt_Some. }
      rewrite Hx in Hlk. injection Hlk as ->.
      unfold measured, _parse_kotlin_metrics. simpl.
      rewrite (scan_metrics_no_marker _ _ (Hnone i stdout Hen)). done. }
    apply Qmult_0_l. }
  split; [exact Hgc|].
  unfold comparison_deltas.
  destruct (percent_change (throughput_ops_per_sec _) _); [|done].
  destruct (percent_change (duration_ms _) _); [|done].
  destruct (percent_change (num_value (memory_used_mb _)) _); [|done].
  simpl.
  by rewrite (proj2 (percent_change_None _ (num_value (gc_time_ms other))) Hgc).
Qed.
End CompareAfterRun.

Lemma baseline_without_metrics_cannot_be_compared_witness :
  ∃ r g',
    run_benchmark two_runs_config silent_world fixed_instant
      (seeded (G:=Z) 12345) = Some (r, g')
    ∧ comparison_deltas (mean_metrics r) (mean_metrics r) = None.
Proof.
  destruct (run_benchmark two_runs_config silent_world fixed_instant
              (seeded (G:=Z) 12345)) as [[r g']|] eqn:Hrun.
  - exists r, g'. split; [reflexivity|].
    apply (baseline_without_metrics_cannot_be_compared (G:=Z)
             _ _ _ _ _ _ (mean_metrics r) Hrun).
    intros i stdout Hen. vm_compute in Hen. injection Hen as <-.
    vm_compute. repeat constructor.
  - exfalso. vm_compute in Hrun. discriminate.
Defined.

(** * Appending to the status log *)

Lemma ends_with_newline_tail (c c' : ascii) (s : string) :
  ends_with_newline (String c (String c' s)) = ends_with_newline (String c' s).
Proof. reflexivity. Qed.

Lemma splitlines_go_cons2 (cur : string) (c c' : ascii) (s : string) :
  PyStr.splitlines_go cur (String c (String c' s))
  = if PyStr.is_linebreak c
    then (if bool_decide (c = "013"%char) && bool_decide (c' = "010"%char)
          then String.rev cur :: PyStr.splitlines_go "" s
          else String.rev cur :: PyStr.splitlines_go "" (String c' s))
    else PyStr.splitlines_go (String c cur) (String c' s).
Proof. reflexivity. Qed.

Lemma splitlines_go_app (n : nat) :
  ∀ a cur b,
    (String.length a <= n)%nat →
    ends_with_newline a = true →
    PyStr.splitlines_go cur (a +:+ b)
    = PyStr.splitlines_go cur a ++ PyStr.splitlines_go "" b.
Proof.
  induction n as [|n IH]; intros a cur b Hlen Hend.
  { destruct a; [done|simpl in Hlen; lia]. }
  destruct a as [|c a']; [done|].
  destruct a' as [|c' a''].
  - (* the text is one line feed *)
    simpl in Hend. apply bool_decide_eq_true_1 in Hend. subst c.
    change (String "010" "" +:+ b) with (String "010" b).
    destruct b as [|c' b']; reflexivity.
  - rewrite ends_with_newline_tail in Hend.
    change (String c (String c' a'') +:+ b)
      with (String c (String c' (a'' +:+ b))).
    simpl in Hlen.
    rewrite (splitlines_go_cons2 cur c c' (a'' +:+ b)),
      (splitlines_go_cons2 cur c c' a'').
    destruct (PyStr.is_linebreak c).
    + destruct (bool_decide (c = "013"%char) && bool_decide (c' = "010"%char)).
      * destruct a'' as [|c'' a'''].
        { reflexivity. }
        rewrite (IH (String c'' a''') "" b); [done|simpl in *; lia|].
        by rewrite ends_with_newline_tail in Hend.
      * change (String c' (a'' +:+ b)) with (String c' a'' +:+ b).
        rewrite (IH (String c' a'') "" b); [done|simpl; lia|done].
    + change (String c' (a'' +:+ b)) with (String c' a'' +:+ b).
      rewrite (IH (String c' a'') (String c cur) b); [done|simpl; lia|done].
Qed.

Lemma splitlines_app (a b : string) :
  ends_with_newline a = true →
  PyStr.splitlines (a +:+ b) = PyStr.splitlines a ++ PyStr.splitlines b.
Proof.
  intros Hend. unfold PyStr.splitlines.
  by apply (splitlines_go_app (String.length a)).
Qed.

Lemma count_lines_app (p : string → bool) (a b : string) :
  ends_with_newline a = true →
  count_lines p (a +:+ b) = count_lines p a + count_lines p b.
Proof.
  intros Hend. unfold count_lines.
  rewrite splitlines_app, filter_app, length_app by done. lia.
Qed.

(** X21: when the status text ends with a line feed, the counts of the
    text with more text appended are, component by component, the counts
    of the text plus the counts of what was appended; so appending to the
    log never lowers a count. *)
Theorem observed_counts_append (text more : string) :
  ends_with_newline text = true →
  let '(m1, u1, d1) := observed_counts text in
  let '(m2, u2, d2) := observed_counts more in
  observed_counts (text +:+ more) = (m1 + m2, u1 + u2, d1 + d2)
  ∧ 0 <= m2 ∧ 0 <= u2 ∧ 0 <= d2.
Proof.
  intros Hend. unfold observed_counts.
  rewrite !count_lines_app by done.
  split; [done|]. unfold count_lines. lia.
Qed.

Lemma observed_counts_append_witness :
  ends_with_newline status_partial = true
  ∧ observed_counts (status_partial +:+ status_done) = (0 + 1, 1 + 1, 0 + 0).
Proof.
  assert (ends_with_newline status_partial = true) as Hend
    by (vm_compute; reflexivity).
  split; [exact Hend|].
  exact (proj1 (observed_counts_append status_partial status_done Hend)).
Defined.

(** * The expected triple within the cap *)

Section ExpectedWithinCap.
Context {G : Type} `{RandomSourceLaws G}.

(** X22: for non-negative counts with at most as many duplicates as
    trades, the expected triple returned by [generate_dataset] is exactly
    the number of primary lines, unmatch lines and duplicate lines it
    wrote. *)
Theorem expected_triple_counts_lines_within_cap
    (n_trades n_unmatches n_duplicates : Z) (g : G) :
  0 <= n_trades → 0 <= n_unmatches → 0 <= n_duplicates <= n_trades →
  ∃ d g1 out g2,
    draft_dataset n_trades n_unmatches n_duplicates g = Some (d, g1)
    ∧ generate_dataset n_trades n_unmatches n_duplicates g = Some (out, g2)
    ∧ out.2 = (Z.of_nat (length (d_primary d)),
               Z.of_nat (length (d_unmatches d)),
               Z.of_nat (length (d_duplicates d))).
Proof.
  intros Ht Hu Hd.
  destruct (draft_dataset_shape n_trades n_unmatches n_duplicates g)
    as (d & g1 & Hdr & Htr & Hpr & Hdup & Hun).
  destruct (generate_dataset_total n_trades n_unmatches n_duplicates g)
    as [[out g2] Hout].
  exists d, g1, out, g2. split_and!; [done|done|].
  rewrite (generate_dataset_expected _ _ _ _ _ _ Hout).
  assert (length (d_primary d) = Z.to_nat n_trades) as Hlen.
  { rewrite Hpr, length_fmap, Htr. apply make_trades_length. }
  rewrite Hdup, Hun, Hlen. unfold emitted_duplicates.
  destruct (Z.ltb_spec 0 n_duplicates); repeat f_equal; lia.
Qed.
End ExpectedWithinCap.

Lemma expected_triple_counts_lines_within_cap_witness :
  ∃ d g1 out g2,
    draft_dataset 25 7 5 (seeded (G:=Z) 42) = Some (d, g1)
    ∧ generate_dataset 25 7 5 (seeded (G:=Z) 42) = Some (out, g2)
    ∧ out.2 = (Z.of_nat (length (d_primary d)),
               Z.of_nat (length (d_unmatches d)),
               Z.of_nat (length (d_duplicates d))).
Proof.
  apply (expected_triple_counts_lines_within_cap (G:=Z) 25 7 5 (seeded 42));
    lia.
Defined.
